(** * gbhv: VMX root-mode lifecycle and segment translation (vmx.c)

    A shallow embedding of [src/gbhv/vmx.c].  The four functions of the
    file are translated one by one:

    - [VmxSetFixedBits], [VmxEnterRootMode] and [VmxExitRootMode] act on
      the processor; they are written in a small state monad [HW] over a
      simulated processor [Cpu] that holds the control registers, the
      model-specific registers and the trace of privileged instructions
      and log lines issued so far;
    - [VmxGetSegmentDescriptorFromSelector] fills a caller-supplied
      structure from the descriptor table in memory; it is a function of
      the previous contents of that structure, of memory and of its three
      value arguments.

    Unsigned 64-bit quantities are integers of [Z]; [|=] and [&=] are
    [Z.lor] and [Z.land], which cannot leave the 64-bit range (lemma
    [VmxSetFixedBits_wf]). *)

From Stdlib Require Import ZArith List Bool String Lia.
Import ListNotations.

Local Open Scope Z_scope.

(** ** The simulated processor *)

(** The privileged virtualization instructions vmx.c issues through the
    compiler intrinsics [__vmx_on], [__vmx_vmclear], [__vmx_vmptrld] and
    [__vmx_off]. *)
Inductive VmxInstr : Set := VMXON | VMCLEAR | VMPTRLD | VMXOFF.

(** What the processor and the log sink observe, oldest first.  An
    instruction is recorded with the physical address it was issued
    against and the status it reported (0 is success); [__vmx_off] has
    neither operand nor status and is recorded with both at 0. *)
Inductive Event : Set :=
| EvVmx (i : VmxInstr) (operand status : Z)
| EvLogDebug (msg : string)
| EvLogError (msg : string).

Record Cpu : Type := mkCpu {
  cr0 : Z;
  cr4 : Z;
  msr : Z -> Z;
  trace : list Event
}.

Definition set_cr0 (v : Z) (s : Cpu) : Cpu :=
  {| cr0 := v; cr4 := cr4 s; msr := msr s; trace := trace s |}.

Definition set_cr4 (v : Z) (s : Cpu) : Cpu :=
  {| cr0 := cr0 s; cr4 := v; msr := msr s; trace := trace s |}.

Definition emit (e : Event) (s : Cpu) : Cpu :=
  {| cr0 := cr0 s; cr4 := cr4 s; msr := msr s; trace := trace s ++ [e] |}.

(** Code that touches the processor: a state monad over [Cpu]. *)
Definition HW (A : Type) : Type := Cpu -> A * Cpu.

Definition ret {A : Type} (a : A) : HW A := fun s => (a, s).

Definition bind {A B : Type} (m : HW A) (k : A -> HW B) : HW B :=
  fun s => let (a, s') := m s in k a s'.

Declare Scope hw_scope.
Delimit Scope hw_scope with hw.
Notation "x <- m ;; k" := (bind m (fun x => k))
  (at level 61, m at next level, right associativity) : hw_scope.
Notation "m ;;; k" := (bind m (fun _ => k))
  (at level 61, right associativity) : hw_scope.
Local Open Scope hw_scope.

Definition __readcr0 : HW Z := fun s => (cr0 s, s).
Definition __readcr4 : HW Z := fun s => (cr4 s, s).
Definition __writecr0 (v : Z) : HW unit := fun s => (tt, set_cr0 v s).
Definition __writecr4 (v : Z) : HW unit := fun s => (tt, set_cr4 v s).
Definition __readmsr (index : Z) : HW Z := fun s => (msr s index, s).

(** The logging sink records the format string of each line; the values
    formatted into it are not kept. *)
Definition HvUtilLogDebug (msg : string) : HW unit :=
  fun s => (tt, emit (EvLogDebug msg) s).
Definition HvUtilLogError (msg : string) : HW unit :=
  fun s => (tt, emit (EvLogError msg) s).

(** Modelled from the spec: the indices of the four capability registers,
    named in vmx.c and declared in a header that is not among the sources.
    They are the architectural numbers of the "must-be-1" (FIXED0) and
    "may-be-1" (FIXED1) masks of CR0 and CR4. *)
Definition IA32_VMX_CR0_FIXED0 : Z := 0x486.
Definition IA32_VMX_CR0_FIXED1 : Z := 0x487.
Definition IA32_VMX_CR4_FIXED0 : Z := 0x488.
Definition IA32_VMX_CR4_FIXED1 : Z := 0x489.

(** Modelled from the spec: [ArchEnableVmxe] and [ArchDisableVmxe] are
    called by vmx.c and defined elsewhere.  They set and clear "the
    processor's virtualization-capability enable bit", CR4.VMXE, bit 13. *)
Definition CR4_VMXE_BIT : Z := 13.

Definition ArchEnableVmxe : HW unit :=
  fun s => (tt, set_cr4 (Z.setbit (cr4 s) CR4_VMXE_BIT) s).

Definition ArchDisableVmxe : HW unit :=
  fun s => (tt, set_cr4 (Z.clearbit (cr4 s) CR4_VMXE_BIT) s).

(** ** VmxSetFixedBits (vmx.c, lines 10-29) *)

Definition VmxSetFixedBits : HW unit :=
  ControlRegister0 <- __readcr0 ;;
  ControlRegister4 <- __readcr4 ;;
  fixed0 <- __readmsr IA32_VMX_CR0_FIXED0 ;;
  let ControlRegister0 := Z.lor ControlRegister0 fixed0 in
  fixed1 <- __readmsr IA32_VMX_CR0_FIXED1 ;;
  let ControlRegister0 := Z.land ControlRegister0 fixed1 in
  fixed0 <- __readmsr IA32_VMX_CR4_FIXED0 ;;
  let ControlRegister4 := Z.lor ControlRegister4 fixed0 in
  fixed1 <- __readmsr IA32_VMX_CR4_FIXED1 ;;
  let ControlRegister4 := Z.land ControlRegister4 fixed1 in
  __writecr0 ControlRegister0 ;;;
  __writecr4 ControlRegister4.

(** Registers and capability masks are unsigned 64-bit words. *)
Definition uint64 (v : Z) : Prop := 0 <= v < 2 ^ 64.

Definition wf_cpu (s : Cpu) : Prop :=
  uint64 (cr0 s) /\ uint64 (cr4 s) /\ forall i, uint64 (msr s i).

(** A processor whose CR0 capability masks contradict each other: bit 0
    must be 1 (FIXED0) and must be 0 (absent from FIXED1). *)
Definition cpu_contradictory : Cpu :=
  {| cr0 := 0; cr4 := 0;
     msr := fun i => if i =? IA32_VMX_CR0_FIXED0 then 1 else 0;
     trace := [] |}.

(** A processor with consistent masks: CR0 must have bits 0 and 5 set and
    may have any of its low 32 bits set; CR4 must have bit 13 set. *)
Definition cpu_sample : Cpu :=
  {| cr0 := 0x80000010; cr4 := 0x100000020;
     msr := fun i =>
       if i =? IA32_VMX_CR0_FIXED0 then 0x21
       else if i =? IA32_VMX_CR0_FIXED1 then 0xFFFFFFFF
       else if i =? IA32_VMX_CR4_FIXED0 then 0x2000
       else if i =? IA32_VMX_CR4_FIXED1 then 0x3FFFFF
       else 0;
     trace := [] |}.

(** ** The privileged instructions *)

(** Modelled from the spec: the processor context is declared in vmm.h,
    which is not among the sources.  It "supplies a virtual and physical
    address pair for the VMXON region, and a virtual and physical address
    pair for the VMCS region". *)
Record VMM_PROCESSOR_CONTEXT : Type := mkContext {
  VmxonRegion : Z;
  VmxonRegionPhysical : Z;
  VmcsRegion : Z;
  VmcsRegionPhysical : Z
}.

(** How the processor answers a privileged instruction: the status it
    reports for the instruction, issued against the given physical
    address in the given processor state (trace included, so the answer
    may depend on everything that happened before).  0 is success, any
    other value is failure. *)
Definition StatusOracle : Type := VmxInstr -> Z -> Cpu -> Z.

Section Lifecycle.

Variable vmx_status : StatusOracle.

Definition vmx_issue (i : VmxInstr) (pa : Z) : HW Z :=
  fun s => let st := vmx_status i pa s in (st, emit (EvVmx i pa st) s).

Definition __vmx_on (pa : Z) : HW Z := vmx_issue VMXON pa.
Definition __vmx_vmclear (pa : Z) : HW Z := vmx_issue VMCLEAR pa.
Definition __vmx_vmptrld (pa : Z) : HW Z := vmx_issue VMPTRLD pa.
Definition __vmx_off : HW unit :=
  fun s => (tt, emit (EvVmx VMXOFF 0 0) s).

(** *** VmxEnterRootMode (vmx.c, lines 41-74) *)
Definition VmxEnterRootMode (Context : VMM_PROCESSOR_CONTEXT) : HW bool :=
  ArchEnableVmxe ;;;
  VmxSetFixedBits ;;;
  HvUtilLogDebug "VmxOnRegion[#%i]: (V) 0x%llx / (P) 0x%llx [%i]" ;;;
  on <- __vmx_on (VmxonRegionPhysical Context) ;;
  if negb (on =? 0) then
    HvUtilLogError "VMXON failed." ;;;
    ret false
  else
    cleared <- __vmx_vmclear (VmcsRegionPhysical Context) ;;
    if negb (cleared =? 0) then
      HvUtilLogError "VMCLEAR failed." ;;;
      ret false
    else
      loaded <- __vmx_vmptrld (VmcsRegionPhysical Context) ;;
      if negb (loaded =? 0) then
        HvUtilLogError "VMPTRLD failed." ;;;
        ret false
      else
        ret true.

(** *** VmxExitRootMode (vmx.c, lines 84-100) *)
Definition VmxExitRootMode (Context : VMM_PROCESSOR_CONTEXT) : HW bool :=
  cleared <- __vmx_vmclear (VmcsRegionPhysical Context) ;;
  if negb (cleared =? 0) then
    HvUtilLogError "VMCLEAR failed." ;;;
    ret false
  else
    __vmx_off ;;;
    ArchDisableVmxe ;;;
    ret true.

End Lifecycle.

(** The events a run appended to the trace, and among them the privileged
    instructions with the status each reported, in the order of issue. *)
Definition issued (before after : Cpu) : list Event :=
  skipn (List.length (trace before)) (trace after).

Definition attempted (evs : list Event) : list (VmxInstr * Z) :=
  flat_map (fun e => match e with
                     | EvVmx i _ st => [(i, st)]
                     | _ => []
                     end) evs.

Definition VmxInstr_eqb (a b : VmxInstr) : bool :=
  match a, b with
  | VMXON, VMXON | VMCLEAR, VMCLEAR | VMPTRLD, VMPTRLD | VMXOFF, VMXOFF => true
  | _, _ => false
  end.

(** Simulated processors for the examples: one on which every instruction
    succeeds, one on which a chosen instruction fails with status 1. *)
Definition hw_ok : StatusOracle := fun _ _ _ => 0.

Definition hw_fail_at (i : VmxInstr) : StatusOracle :=
  fun j _ _ => if VmxInstr_eqb i j then 1 else 0.

Definition context_sample : VMM_PROCESSOR_CONTEXT :=
  {| VmxonRegion := 0xFFFF800000001000; VmxonRegionPhysical := 0x1000;
     VmcsRegion := 0xFFFF800000002000; VmcsRegionPhysical := 0x2000 |}.

(** ** Segment descriptors *)

(** Modelled from the spec: the four structure types below are declared
    in headers that are not among the sources; vmx.c names their fields.
    Widths are those of the architectural layouts the spec refers to
    ("a 16-bit value decomposed into an index, a table indicator and a
    requested privilege level"; "base address split across three
    non-contiguous fields, limit split across two fields"; "a 16-bit
    selector, a 32-bit limit, a 64-bit base, and an access-rights word
    with discrete fields"). *)

(** SEGMENT_SELECTOR is a union of the 16-bit [Flags] word and of the bit
    fields RequestPrivilegeLevel (bits 0-1), Table (bit 2) and Index (bits
    3-15): reading a field extracts its bits from [Flags], writing one
    replaces them. *)
Record SEGMENT_SELECTOR : Type := mkSelector { Flags : Z }.

Definition RequestPrivilegeLevel (s : SEGMENT_SELECTOR) : Z :=
  Z.land (Flags s) 3.
Definition Table (s : SEGMENT_SELECTOR) : Z :=
  Z.land (Z.shiftr (Flags s) 2) 1.
Definition Index (s : SEGMENT_SELECTOR) : Z :=
  Z.land (Z.shiftr (Flags s) 3) 0x1FFF.

Definition set_RequestPrivilegeLevel (v : Z) (s : SEGMENT_SELECTOR)
  : SEGMENT_SELECTOR :=
  {| Flags := Z.lor (Z.ldiff (Flags s) 3) (Z.land v 3) |}.

Record SEGMENT_DESCRIPTOR_REGISTER_64 : Type := mkGdtr {
  Limit : Z;
  Gdt_BaseAddress : Z
}.

(** The native descriptor, by field. *)
Record SEGMENT_DESCRIPTOR_64 : Type := mkOsDescriptor {
  SegmentLimitLow : Z;
  BaseAddressLow : Z;
  BaseAddressMiddle : Z;
  Os_Type : Z;
  Os_DescriptorType : Z;
  Os_DescriptorPrivilegeLevel : Z;
  Os_Present : Z;
  SegmentLimitHigh : Z;
  System : Z;
  Os_LongMode : Z;
  Os_DefaultBig : Z;
  Os_Granularity : Z;
  BaseAddressHigh : Z;
  BaseAddressUpper : Z
}.

Record VMX_SEGMENT_ACCESS_RIGHTS : Type := mkAccessRights {
  Type_ : Z;
  DescriptorType : Z;
  DescriptorPrivilegeLevel : Z;
  Present : Z;
  AvailableBit : Z;
  LongMode : Z;
  DefaultBig : Z;
  Granularity : Z;
  Unusable : Z
}.

Record VMX_SEGMENT_DESCRIPTOR : Type := mkVmxDescriptor {
  Selector : Z;
  BaseAddress : Z;
  SegmentLimit : Z;
  AccessRights : VMX_SEGMENT_ACCESS_RIGHTS
}.

(** Memory as vmx.c reads it: through a pointer to a native descriptor.
    [mem a] is the descriptor stored at linear address [a]. *)
Definition Memory : Type := Z -> SEGMENT_DESCRIPTOR_64.

(** A store to a bit field of [w] bits, or to a 32-bit member, keeps the
    low bits of the value. *)
Definition bitfield (w v : Z) : Z := Z.land v (Z.ones w).
Definition uint32_of (v : Z) : Z := v mod 2 ^ 32.

Definition set_Selector (v : Z) (d : VMX_SEGMENT_DESCRIPTOR) :=
  {| Selector := v; BaseAddress := BaseAddress d;
     SegmentLimit := SegmentLimit d; AccessRights := AccessRights d |}.
Definition set_BaseAddress (v : Z) (d : VMX_SEGMENT_DESCRIPTOR) :=
  {| Selector := Selector d; BaseAddress := v;
     SegmentLimit := SegmentLimit d; AccessRights := AccessRights d |}.
Definition set_SegmentLimit (v : Z) (d : VMX_SEGMENT_DESCRIPTOR) :=
  {| Selector := Selector d; BaseAddress := BaseAddress d;
     SegmentLimit := uint32_of v; AccessRights := AccessRights d |}.
Definition with_AccessRights
  (f : VMX_SEGMENT_ACCESS_RIGHTS -> VMX_SEGMENT_ACCESS_RIGHTS)
  (d : VMX_SEGMENT_DESCRIPTOR) :=
  {| Selector := Selector d; BaseAddress := BaseAddress d;
     SegmentLimit := SegmentLimit d; AccessRights := f (AccessRights d) |}.

Definition set_Type (v : Z) (a : VMX_SEGMENT_ACCESS_RIGHTS) :=
  mkAccessRights (bitfield 4 v) (DescriptorType a)
    (DescriptorPrivilegeLevel a) (Present a) (AvailableBit a) (LongMode a)
    (DefaultBig a) (Granularity a) (Unusable a).
Definition set_DescriptorType (v : Z) (a : VMX_SEGMENT_ACCESS_RIGHTS) :=
  mkAccessRights (Type_ a) (bitfield 1 v)
    (DescriptorPrivilegeLevel a) (Present a) (AvailableBit a) (LongMode a)
    (DefaultBig a) (Granularity a) (Unusable a).
Definition set_DescriptorPrivilegeLevel (v : Z)
  (a : VMX_SEGMENT_ACCESS_RIGHTS) :=
  mkAccessRights (Type_ a) (DescriptorType a)
    (bitfield 2 v) (Present a) (AvailableBit a) (LongMode a)
    (DefaultBig a) (Granularity a) (Unusable a).
Definition set_Present (v : Z) (a : VMX_SEGMENT_ACCESS_RIGHTS) :=
  mkAccessRights (Type_ a) (DescriptorType a)
    (DescriptorPrivilegeLevel a) (bitfield 1 v) (AvailableBit a) (LongMode a)
    (DefaultBig a) (Granularity a) (Unusable a).
Definition set_AvailableBit (v : Z) (a : VMX_SEGMENT_ACCESS_RIGHTS) :=
  mkAccessRights (Type_ a) (DescriptorType a)
    (DescriptorPrivilegeLevel a) (Present a) (bitfield 1 v) (LongMode a)
    (DefaultBig a) (Granularity a) (Unusable a).
Definition set_LongMode (v : Z) (a : VMX_SEGMENT_ACCESS_RIGHTS) :=
  mkAccessRights (Type_ a) (DescriptorType a)
    (DescriptorPrivilegeLevel a) (Present a) (AvailableBit a) (bitfield 1 v)
    (DefaultBig a) (Granularity a) (Unusable a).
Definition set_DefaultBig (v : Z) (a : VMX_SEGMENT_ACCESS_RIGHTS) :=
  mkAccessRights (Type_ a) (DescriptorType a)
    (DescriptorPrivilegeLevel a) (Present a) (AvailableBit a) (LongMode a)
    (bitfield 1 v) (Granularity a) (Unusable a).
Definition set_Granularity (v : Z) (a : VMX_SEGMENT_ACCESS_RIGHTS) :=
  mkAccessRights (Type_ a) (DescriptorType a)
    (DescriptorPrivilegeLevel a) (Present a) (AvailableBit a) (LongMode a)
    (DefaultBig a) (bitfield 1 v) (Unusable a).
Definition set_Unusable (v : Z) (a : VMX_SEGMENT_ACCESS_RIGHTS) :=
  mkAccessRights (Type_ a) (DescriptorType a)
    (DescriptorPrivilegeLevel a) (Present a) (AvailableBit a) (LongMode a)
    (DefaultBig a) (Granularity a) (bitfield 1 v).

(** [OsZeroMemory(VmxSegmentDescriptor, sizeof(VMX_SEGMENT_DESCRIPTOR))]:
    whatever the structure held, every member is 0 afterwards. *)
Definition OsZeroMemory (_ : VMX_SEGMENT_DESCRIPTOR) : VMX_SEGMENT_DESCRIPTOR :=
  mkVmxDescriptor 0 0 0 (mkAccessRights 0 0 0 0 0 0 0 0 0).

(** The table base is cast to a pointer to descriptor POINTERS before the
    index is added, so the index is scaled by the size of a pointer, 8
    bytes on the 64-bit processors VMX root mode is entered on. *)
Definition sizeof_pointer : Z := 8.

Definition OsSegmentDescriptor_address
  (GdtRegister : SEGMENT_DESCRIPTOR_REGISTER_64)
  (SegmentSelector : SEGMENT_SELECTOR) : Z :=
  Gdt_BaseAddress GdtRegister + Index SegmentSelector * sizeof_pointer.

(** The two reconstructions, as the expressions of lines 140-142 and 154,
    computed in [Z] without truncation.  For the base, the mask of line
    147 keeps the low 32 bits, which are the same whether or not the
    shifts were already truncated to 32 bits.  For the limit, a 4-bit and
    a 16-bit field combine into at most 20 bits
    ([VmxGetSegmentDescriptorFromSelector_exact]). *)
Definition base_combined (d : SEGMENT_DESCRIPTOR_64) : Z :=
  Z.lor (Z.lor (Z.shiftl (BaseAddressUpper d) 24)
               (Z.shiftl (BaseAddressMiddle d) 16))
        (BaseAddressLow d).

Definition limit_combined (d : SEGMENT_DESCRIPTOR_64) : Z :=
  Z.lor (Z.shiftl (SegmentLimitHigh d) 16) (SegmentLimitLow d).

(** *** VmxGetSegmentDescriptorFromSelector (vmx.c, lines 109-185)

    The first argument is the structure the caller passes by pointer, with
    whatever it held before the call; the result is that structure on
    return.  [mem] is the memory the descriptor table lives in. *)
Definition VmxGetSegmentDescriptorFromSelector
  (mem : Memory)
  (VmxSegmentDescriptor : VMX_SEGMENT_DESCRIPTOR)
  (GdtRegister : SEGMENT_DESCRIPTOR_REGISTER_64)
  (SegmentSelector : SEGMENT_SELECTOR)
  (ClearRPL : bool) : VMX_SEGMENT_DESCRIPTOR :=
  let out := OsZeroMemory VmxSegmentDescriptor in
  let out :=
    if (Flags SegmentSelector =? 0) || negb (Table SegmentSelector =? 0)
    then with_AccessRights (set_Unusable 1) out
    else out in
  let OsSegmentDescriptor :=
    mem (OsSegmentDescriptor_address GdtRegister SegmentSelector) in
  let out := set_BaseAddress (base_combined OsSegmentDescriptor) out in
  let out := set_BaseAddress (Z.land (BaseAddress out) 0xFFFFFFFF) out in
  let out := set_SegmentLimit (limit_combined OsSegmentDescriptor) out in
  let SegmentSelector :=
    if ClearRPL then set_RequestPrivilegeLevel 0 SegmentSelector
    else SegmentSelector in
  let out := set_Selector (Flags SegmentSelector) out in
  let out := with_AccessRights (set_Type (Os_Type OsSegmentDescriptor)) out in
  let out := with_AccessRights
    (set_DescriptorType (Os_DescriptorType OsSegmentDescriptor)) out in
  let out := with_AccessRights
    (set_DescriptorPrivilegeLevel
       (Os_DescriptorPrivilegeLevel OsSegmentDescriptor)) out in
  let out := with_AccessRights (set_Present (Os_Present OsSegmentDescriptor)) out in
  let out := with_AccessRights (set_AvailableBit (System OsSegmentDescriptor)) out in
  let out := with_AccessRights (set_LongMode (Os_LongMode OsSegmentDescriptor)) out in
  let out := with_AccessRights
    (set_DefaultBig (Os_DefaultBig OsSegmentDescriptor)) out in
  let out := with_AccessRights
    (set_Granularity (Os_Granularity OsSegmentDescriptor)) out in
  with_AccessRights (set_Unusable 0) out.

(** Field ranges of the native descriptor and of the selector. *)
Definition wf_descriptor (d : SEGMENT_DESCRIPTOR_64) : Prop :=
  0 <= SegmentLimitLow d < 2 ^ 16 /\ 0 <= BaseAddressLow d < 2 ^ 16 /\
  0 <= BaseAddressMiddle d < 2 ^ 8 /\ 0 <= Os_Type d < 2 ^ 4 /\
  0 <= Os_DescriptorType d < 2 /\ 0 <= Os_DescriptorPrivilegeLevel d < 2 ^ 2 /\
  0 <= Os_Present d < 2 /\ 0 <= SegmentLimitHigh d < 2 ^ 4 /\
  0 <= System d < 2 /\ 0 <= Os_LongMode d < 2 /\ 0 <= Os_DefaultBig d < 2 /\
  0 <= Os_Granularity d < 2 /\ 0 <= BaseAddressHigh d < 2 ^ 8 /\
  0 <= BaseAddressUpper d < 2 ^ 32.

Definition wf_selector (s : SEGMENT_SELECTOR) : Prop := 0 <= Flags s < 2 ^ 16.

(** Modelled from the spec: how a native descriptor lies in memory.  The
    structure is declared in a header that is not among the sources; the
    layout is the architectural one ("the CPU's 8-byte (or 16-byte, for
    certain segment types) in-memory descriptor format"): a little-endian
    quadword holding limit low (bits 0-15), base low (16-31), base middle
    (32-39), type (40-43), descriptor type (44), privilege level (45-46),
    present (47), limit high (48-51), system/available (52), long mode
    (53), default size (54), granularity (55) and base high (56-63),
    followed by the 32-bit upper base.  In a table of 8-byte entries the
    upper base of one entry is therefore the first half of the next.
    Only the sample data below is built with it; the results hold for
    every [Memory]. *)
Definition read64 (bytes : Z -> Z) (a : Z) : Z :=
  fold_right
    (fun i acc => Z.lor (Z.shiftl (Z.land (bytes (a + i)) 0xFF) (8 * i)) acc)
    0 [0; 1; 2; 3; 4; 5; 6; 7].

Definition field (q pos width : Z) : Z := Z.land (Z.shiftr q pos) (Z.ones width).

Definition descriptor_at (bytes : Z -> Z) : Memory :=
  fun a =>
    let q := read64 bytes a in
    {| SegmentLimitLow := field q 0 16;
       BaseAddressLow := field q 16 16;
       BaseAddressMiddle := field q 32 8;
       Os_Type := field q 40 4;
       Os_DescriptorType := field q 44 1;
       Os_DescriptorPrivilegeLevel := field q 45 2;
       Os_Present := field q 47 1;
       SegmentLimitHigh := field q 48 4;
       System := field q 52 1;
       Os_LongMode := field q 53 1;
       Os_DefaultBig := field q 54 1;
       Os_Granularity := field q 55 1;
       BaseAddressHigh := field q 56 8;
       BaseAddressUpper := field (read64 bytes (a + 8)) 0 32 |}.

(** The bytes of a table given by its quadwords, stored from [base] on;
    every other byte of memory is 0. *)
Definition image_bytes (base : Z) (quads : list Z) : Z -> Z :=
  fun a =>
    let off := a - base in
    if off <? 0 then 0
    else field (nth (Z.to_nat (off / 8)) quads 0) (8 * (off mod 8)) 8.

(** Sample data: a table at 0x1000 with a flat 64-bit code segment in
    slot 2, the descriptor of the reconstruction examples in slot 3 (its
    upper base, 0x78, is the start of slot 4), a 16-byte system
    descriptor in slots 8 and 9, and zeroes elsewhere.  The records below
    are what [descriptor_at] reads at 0x1000, 0x1010, 0x1018 and 0x1040
    ([sample_table_contents]). *)
Definition gdt_image : list Z :=
  [0; 0; 0x00AF9B000000FFFF; 0x0053F3561234ABCD; 0x78; 0; 0; 0;
   0x01008B2030000067; 0x00000000FFFFF801].

Definition descriptor_zero : SEGMENT_DESCRIPTOR_64 :=
  mkOsDescriptor 0 0 0 0 0 0 0 0 0 0 0 0 0 0.

Definition descriptor_code : SEGMENT_DESCRIPTOR_64 :=
  {| SegmentLimitLow := 0xFFFF; BaseAddressLow := 0; BaseAddressMiddle := 0;
     Os_Type := 0xB; Os_DescriptorType := 1; Os_DescriptorPrivilegeLevel := 0;
     Os_Present := 1; SegmentLimitHigh := 0xF; System := 0; Os_LongMode := 1;
     Os_DefaultBig := 0; Os_Granularity := 1; BaseAddressHigh := 0;
     BaseAddressUpper := 0x1234ABCD |}.

Definition descriptor_example : SEGMENT_DESCRIPTOR_64 :=
  {| SegmentLimitLow := 0xABCD; BaseAddressLow := 0x1234;
     BaseAddressMiddle := 0x56;
     Os_Type := 0x3; Os_DescriptorType := 1; Os_DescriptorPrivilegeLevel := 3;
     Os_Present := 1; SegmentLimitHigh := 0x3; System := 1; Os_LongMode := 0;
     Os_DefaultBig := 1; Os_Granularity := 0; BaseAddressHigh := 0;
     BaseAddressUpper := 0x78 |}.

Definition gdtr_sample : SEGMENT_DESCRIPTOR_REGISTER_64 :=
  {| Limit := 0x7F; Gdt_BaseAddress := 0x1000 |}.

Definition mem_sample : Memory := descriptor_at (image_bytes 0x1000 gdt_image).

(** A second memory: the same slots 2 and 3, everything else different. *)
Definition mem_sample_other : Memory :=
  descriptor_at
    (image_bytes 0x1000
       [0x00CF93000000FFFF; 0x00CFF3000000FFFF; 0x00AF9B000000FFFF;
        0x0053F3561234ABCD; 0xFFFFFFFFFFFFFFFF]).

Definition vmx_descriptor_zero : VMX_SEGMENT_DESCRIPTOR :=
  OsZeroMemory (mkVmxDescriptor 0 0 0 (mkAccessRights 0 0 0 0 0 0 0 0 0)).

Definition vmx_descriptor_stale : VMX_SEGMENT_DESCRIPTOR :=
  mkVmxDescriptor 0xDEAD 0xBEEF 0xFFFFFFFF (mkAccessRights 15 1 3 1 1 1 1 1 1).

(** The four ways a run of [VmxEnterRootMode] can end, as the list of
    instructions attempted (with their statuses) and the value returned;
    [VmxEnterRootMode_outcome] shows that every run ends in one of them. *)
Inductive enter_outcome : list (VmxInstr * Z) -> bool -> Prop :=
| enter_on_failed (st : Z) :
    st <> 0 -> enter_outcome [(VMXON, st)] false
| enter_clear_failed (st : Z) :
    st <> 0 -> enter_outcome [(VMXON, 0); (VMCLEAR, st)] false
| enter_load_failed (st : Z) :
    st <> 0 -> enter_outcome [(VMXON, 0); (VMCLEAR, 0); (VMPTRLD, st)] false
| enter_bound :
    enter_outcome [(VMXON, 0); (VMCLEAR, 0); (VMPTRLD, 0)] true.

(** The error lines among a list of events, in the order they were
    logged. *)
Definition error_lines (evs : list Event) : list string :=
  flat_map (fun e => match e with
                     | EvLogError m => [m]
                     | _ => []
                     end) evs.

(** The sample processor with its registers already adjusted to its
    masks. *)
Definition cpu_conforming : Cpu :=
  {| cr0 := 0x80000031; cr4 := 0x2020; msr := msr cpu_sample; trace := [] |}.

(** The system descriptor of slots 8 and 9 of the sample table, of the
    16-byte kind: its upper base field holds the high half of a kernel
    address. *)
Definition descriptor_tss : SEGMENT_DESCRIPTOR_64 :=
  {| SegmentLimitLow := 0x67; BaseAddressLow := 0x3000;
     BaseAddressMiddle := 0x20;
     Os_Type := 0xB; Os_DescriptorType := 0; Os_DescriptorPrivilegeLevel := 0;
     Os_Present := 1; SegmentLimitHigh := 0; System := 0; Os_LongMode := 0;
     Os_DefaultBig := 0; Os_Granularity := 0; BaseAddressHigh := 0x01;
     BaseAddressUpper := 0xFFFFF801 |}.

Definition mem_tss : Memory := mem_sample.

(** ** Fixed-bit enforcement: results *)

Lemma VmxSetFixedBits_run (s : Cpu) :
  VmxSetFixedBits s =
  (tt, {| cr0 := Z.land (Z.lor (cr0 s) (msr s IA32_VMX_CR0_FIXED0))
                        (msr s IA32_VMX_CR0_FIXED1);
          cr4 := Z.land (Z.lor (cr4 s) (msr s IA32_VMX_CR4_FIXED0))
                        (msr s IA32_VMX_CR4_FIXED1);
          msr := msr s;
          trace := trace s |}).
Proof. reflexivity. Qed.

Lemma lor_land_bit (x f0 f1 i : Z) :
  Z.testbit (Z.land (Z.lor x f0) f1) i =
  (Z.testbit x i || Z.testbit f0 i) && Z.testbit f1 i.
Proof. now rewrite Z.land_spec, Z.lor_spec. Qed.

Lemma uint64_mask (v : Z) : uint64 v <-> Z.land v (Z.ones 64) = v.
Proof.
  unfold uint64; rewrite Z.land_ones by lia; split; intros H.
  - now apply Z.mod_small.
  - rewrite <- H; apply Z.mod_pos_bound; lia.
Qed.

Lemma uint64_land (a b : Z) : uint64 b -> uint64 (Z.land a b).
Proof.
  rewrite !uint64_mask; intros Hb.
  now rewrite <- Z.land_assoc, Hb.
Qed.

Lemma uint64_lor (a b : Z) : uint64 a -> uint64 b -> uint64 (Z.lor a b).
Proof.
  rewrite !uint64_mask; intros Ha Hb.
  now rewrite Z.land_lor_distr_l, Ha, Hb.
Qed.

(** The adjusted registers are again 64-bit words: no wrap-around is lost
    by computing in [Z]. *)
Lemma VmxSetFixedBits_wf (s : Cpu) :
  wf_cpu s -> wf_cpu (snd (VmxSetFixedBits s)).
Proof.
  intros (H0 & H4 & Hm); rewrite VmxSetFixedBits_run; cbn.
  repeat split; try apply uint64_land; try apply Hm.
Qed.

Lemma lor_land_idem (x f0 f1 : Z) :
  Z.land (Z.lor (Z.land (Z.lor x f0) f1) f0) f1 = Z.land (Z.lor x f0) f1.
Proof.
  apply Z.bits_inj'; intros n _.
  rewrite !lor_land_bit.
  destruct (Z.testbit x n), (Z.testbit f0 n), (Z.testbit f1 n); reflexivity.
Qed.

(** What fixed-bit enforcement guarantees about bit [i] of the adjusted
    register [R], given the live value and the must-be-1 and may-be-1
    masks. *)
Definition bit_enforced (live fixed0 fixed1 R i : Z) : Prop :=
  (Z.testbit fixed1 i = false -> Z.testbit R i = false) /\
  (Z.testbit fixed0 i = true -> Z.testbit fixed1 i = true ->
   Z.testbit R i = true) /\
  (Z.testbit fixed0 i = false -> Z.testbit fixed1 i = true ->
   Z.testbit R i = Z.testbit live i).

Lemma bit_enforced_adjust (x f0 f1 i : Z) :
  bit_enforced x f0 f1 (Z.land (Z.lor x f0) f1) i.
Proof.
  unfold bit_enforced; rewrite lor_land_bit.
  destruct (Z.testbit x i), (Z.testbit f0 i), (Z.testbit f1 i);
    repeat split; intros; cbn; congruence.
Qed.

(** C1, as stated, fails: on a processor whose CR0 masks make bit 0 both
    must-be-1 and absent from may-be-1, the must-be-1 bit is clear after
    enforcement. *)
Lemma VmxSetFixedBits_contradictory_masks :
  ~ (Z.testbit (msr cpu_contradictory IA32_VMX_CR0_FIXED0) 0 = true ->
     Z.testbit (cr0 (snd (VmxSetFixedBits cpu_contradictory))) 0 = true).
Proof. intros H. specialize (H eq_refl). discriminate H. Qed.

(** C1 (amended): after fixed-bit enforcement, for CR0 and for CR4 alike,
    every bit absent from the may-be-1 mask is clear, every must-be-1 bit
    that the may-be-1 mask also allows is set, and every bit that is
    allowed but not mandated keeps the value it had in the live register.
    The masks are the ones the processor reports at the time of the
    call. *)
Theorem VmxSetFixedBits_enforces (s : Cpu) (i : Z) :
  let s' := snd (VmxSetFixedBits s) in
  bit_enforced (cr0 s) (msr s IA32_VMX_CR0_FIXED0) (msr s IA32_VMX_CR0_FIXED1)
               (cr0 s') i /\
  bit_enforced (cr4 s) (msr s IA32_VMX_CR4_FIXED0) (msr s IA32_VMX_CR4_FIXED1)
               (cr4 s') i.
Proof.
  rewrite VmxSetFixedBits_run; cbn; split; apply bit_enforced_adjust.
Qed.

(** On the sample processor: bit 0 of CR0 is mandated and allowed, hence
    set; bit 31 of CR0 is allowed and not mandated, hence still 1; bit 32
    of CR4 is not allowed, hence cleared. *)
Lemma VmxSetFixedBits_enforces_witness :
  let s' := snd (VmxSetFixedBits cpu_sample) in
  Z.testbit (cr0 s') 0 = true /\
  Z.testbit (cr0 s') 31 = Z.testbit (cr0 cpu_sample) 31 /\
  Z.testbit (cr4 s') 32 = false.
Proof.
  cbv zeta; split; [|split].
  - apply (proj1 (proj2 (proj1 (VmxSetFixedBits_enforces cpu_sample 0))));
      reflexivity.
  - apply (proj2 (proj2 (proj1 (VmxSetFixedBits_enforces cpu_sample 31))));
      reflexivity.
  - apply (proj1 (proj2 (VmxSetFixedBits_enforces cpu_sample 32)));
      reflexivity.
Defined.

(** C10: fixed-bit enforcement is idempotent.  Running [VmxSetFixedBits]
    on the state it produced changes nothing, for every live value and
    every mask pair, self-contradictory ones included. *)
Theorem VmxSetFixedBits_idempotent (s : Cpu) :
  snd (VmxSetFixedBits (snd (VmxSetFixedBits s))) = snd (VmxSetFixedBits s).
Proof.
  rewrite !VmxSetFixedBits_run; cbn.
  now rewrite !lor_land_idem.
Qed.

(** ** Root-mode entry and exit: results *)

Lemma issued_app (s s' : Cpu) (evs : list Event) :
  trace s' = trace s ++ evs -> issued s s' = evs.
Proof.
  unfold issued; intros ->.
  rewrite skipn_app, skipn_all, Nat.sub_diag; reflexivity.
Qed.

Ltac flatten_trace :=
  cbn [trace emit set_cr0 set_cr4]; rewrite <- ?app_assoc; cbn [app].

Ltac run_hw :=
  cbv [bind ret ArchEnableVmxe ArchDisableVmxe VmxSetFixedBits HvUtilLogDebug
       HvUtilLogError __vmx_on __vmx_vmclear __vmx_vmptrld __vmx_off vmx_issue
       __readcr0 __readcr4 __readmsr __writecr0 __writecr4].

Lemma VmxEnterRootMode_outcome
  (hw : StatusOracle) (ctx : VMM_PROCESSOR_CONTEXT) (s : Cpu) :
  enter_outcome (attempted (issued s (snd (VmxEnterRootMode hw ctx s))))
                (fst (VmxEnterRootMode hw ctx s)).
Proof.
  unfold VmxEnterRootMode; run_hw.
  repeat match goal with
  | |- context [negb (?st =? 0)] =>
      destruct (Z.eqb_spec st 0) as [->|]; cbn [negb]
  end;
  cbn [fst snd];
  erewrite issued_app by (flatten_trace; reflexivity);
  cbn; now constructor.
Qed.

(** A run only appends to the trace, so [issued] is exactly what it
    added. *)
Lemma VmxEnterRootMode_extends
  (hw : StatusOracle) (ctx : VMM_PROCESSOR_CONTEXT) (s : Cpu) :
  let s' := snd (VmxEnterRootMode hw ctx s) in
  trace s' = trace s ++ issued s s'.
Proof.
  unfold VmxEnterRootMode; run_hw.
  repeat match goal with
  | |- context [negb (?st =? 0)] =>
      destruct (Z.eqb_spec st 0) as [->|]; cbn [negb]
  end;
  cbn [fst snd];
  erewrite issued_app by (flatten_trace; reflexivity);
  flatten_trace; reflexivity.
Qed.

(** What each of the four outcomes says about order, failure, progress
    and success. *)
Lemma enter_outcome_shape (att : list (VmxInstr * Z)) (r : bool) :
  enter_outcome att r ->
  (att <> [] /\
   map fst att = firstn (List.length att) [VMXON; VMCLEAR; VMPTRLD]) /\
  (forall (k : nat) (i : VmxInstr) (st : Z),
      nth_error att k = Some (i, st) -> st <> 0 ->
      List.length att = S k /\ r = false) /\
  (r = true <->
   List.length att = 3%nat /\ forall i st, In (i, st) att -> st = 0) /\
  (forall (k : nat) (i : VmxInstr) (st : Z),
      nth_error att k = Some (i, st) -> st = 0 -> (k < 2)%nat ->
      (S k < List.length att)%nat).
Proof.
  intros [st Hst|st Hst|st Hst|].
  - split; [split; [discriminate|reflexivity]|split; [|split]].
    + intros [|k] i st' Hk Hne; [now split|].
      destruct k; discriminate Hk.
    + split; [discriminate|]. intros [Hlen _]; discriminate Hlen.
    + intros [|k] i st' Hk H0 Hlt; cbn in Hk.
      * injection Hk as _ <-. now elim Hst.
      * destruct k; discriminate Hk.
  - split; [split; [discriminate|reflexivity]|split; [|split]].
    + intros [|[|k]] i st' Hk Hne; cbn in Hk.
      * injection Hk as _ <-. now elim Hne.
      * now split.
      * destruct k; discriminate Hk.
    + split; [discriminate|]. intros [Hlen _]; discriminate Hlen.
    + intros [|[|k]] i st' Hk H0 Hlt; cbn in Hk |- *.
      * lia.
      * injection Hk as _ <-. now elim Hst.
      * lia.
  - split; [split; [discriminate|reflexivity]|split; [|split]].
    + intros [|[|[|k]]] i st' Hk Hne; cbn in Hk.
      * injection Hk as _ <-. now elim Hne.
      * injection Hk as _ <-. now elim Hne.
      * now split.
      * destruct k; discriminate Hk.
    + split; [discriminate|]. intros [_ Hall].
      exfalso; apply Hst, (Hall VMPTRLD); cbn; auto.
    + intros k i st' Hk H0 Hlt; cbn; lia.
  - split; [split; [discriminate|reflexivity]|split; [|split]].
    + intros [|[|[|k]]] i st' Hk Hne; cbn in Hk;
        try (injection Hk as _ <-; now elim Hne).
      destruct k; discriminate Hk.
    + split; [|reflexivity]. intros _. split; [reflexivity|].
      intros i st' [H|[H|[H|[]]]]; now inversion H.
    + intros k i st' Hk H0 Hlt; cbn; lia.
Qed.

(** The run, step by step: the prelude, then each instruction in the
    state its predecessor left, with an early return on a non-zero
    status. *)
Lemma VmxEnterRootMode_steps
  (hw : StatusOracle) (ctx : VMM_PROCESSOR_CONTEXT) (s : Cpu) :
  let s0 := emit (EvLogDebug "VmxOnRegion[#%i]: (V) 0x%llx / (P) 0x%llx [%i]")
                 (snd (VmxSetFixedBits (snd (ArchEnableVmxe s)))) in
  let on := hw VMXON (VmxonRegionPhysical ctx) s0 in
  let s1 := emit (EvVmx VMXON (VmxonRegionPhysical ctx) on) s0 in
  let cl := hw VMCLEAR (VmcsRegionPhysical ctx) s1 in
  let s2 := emit (EvVmx VMCLEAR (VmcsRegionPhysical ctx) cl) s1 in
  let ld := hw VMPTRLD (VmcsRegionPhysical ctx) s2 in
  let s3 := emit (EvVmx VMPTRLD (VmcsRegionPhysical ctx) ld) s2 in
  VmxEnterRootMode hw ctx s =
  if negb (on =? 0) then (false, emit (EvLogError "VMXON failed.") s1)
  else if negb (cl =? 0) then (false, emit (EvLogError "VMCLEAR failed.") s2)
  else if negb (ld =? 0) then (false, emit (EvLogError "VMPTRLD failed.") s3)
  else (true, s3).
Proof.
  cbv zeta; unfold VmxEnterRootMode; run_hw; cbn [fst snd].
  repeat match goal with
  | |- context [negb (?st =? 0)] => destruct (st =? 0); cbn [negb]
  end; reflexivity.
Qed.

(** The run in terms of what the processor answers: VMXON is issued in
    the state the prelude leaves, and each later instruction in the state
    its predecessor left, only if that predecessor reported 0. *)
Lemma VmxEnterRootMode_attempted
  (hw : StatusOracle) (ctx : VMM_PROCESSOR_CONTEXT) (s : Cpu) :
  let s0 := emit (EvLogDebug "VmxOnRegion[#%i]: (V) 0x%llx / (P) 0x%llx [%i]")
                 (snd (VmxSetFixedBits (snd (ArchEnableVmxe s)))) in
  let on := hw VMXON (VmxonRegionPhysical ctx) s0 in
  let s1 := emit (EvVmx VMXON (VmxonRegionPhysical ctx) on) s0 in
  let cl := hw VMCLEAR (VmcsRegionPhysical ctx) s1 in
  let s2 := emit (EvVmx VMCLEAR (VmcsRegionPhysical ctx) cl) s1 in
  let ld := hw VMPTRLD (VmcsRegionPhysical ctx) s2 in
  attempted (issued s (snd (VmxEnterRootMode hw ctx s))) =
    (VMXON, on) ::
    (if on =? 0
     then (VMCLEAR, cl) :: (if cl =? 0 then [(VMPTRLD, ld)] else [])
     else []) /\
  fst (VmxEnterRootMode hw ctx s) = ((on =? 0) && (cl =? 0) && (ld =? 0))%bool.
Proof.
  intros s0 on s1 cl s2 ld.
  pose (s3 := emit (EvVmx VMPTRLD (VmcsRegionPhysical ctx) ld) s2).
  pose proof (VmxEnterRootMode_steps hw ctx s) as Hrun; cbv zeta in Hrun.
  fold s0 in Hrun; fold on in Hrun; fold s1 in Hrun; fold cl in Hrun;
    fold s2 in Hrun; fold ld in Hrun; fold s3 in Hrun.
  rewrite Hrun.
  destruct (on =? 0); [destruct (cl =? 0); [destruct (ld =? 0)|]|];
    cbn [negb fst snd andb]; (split; [|reflexivity]);
    (erewrite issued_app
       by (unfold s3, s2, s1, s0; flatten_trace; reflexivity));
    reflexivity.
Qed.

(** C2: [VmxEnterRootMode] attempts VMXON, VMCLEAR, VMPTRLD in this order
    (the instructions it issued are a non-empty initial segment of that
    list); an instruction that reports a non-zero status is the last one
    attempted and the routine then returns FALSE; an instruction other
    than the third that reports status 0 is followed by the next one; and
    the routine returns TRUE exactly when all three were attempted and
    each reported status 0.  In terms of the processor's answers [on],
    [cl] and [ld] to VMXON, VMCLEAR and VMPTRLD (each asked in the state
    the previous step left): VMXON is always issued, VMCLEAR exactly when
    [on] is 0, VMPTRLD exactly when [on] and [cl] are 0, and the result
    is TRUE exactly when all three answers are 0. *)
Theorem VmxEnterRootMode_order
  (hw : StatusOracle) (ctx : VMM_PROCESSOR_CONTEXT) (s : Cpu) :
  let r := fst (VmxEnterRootMode hw ctx s) in
  let att := attempted (issued s (snd (VmxEnterRootMode hw ctx s))) in
  let s0 := emit (EvLogDebug "VmxOnRegion[#%i]: (V) 0x%llx / (P) 0x%llx [%i]")
                 (snd (VmxSetFixedBits (snd (ArchEnableVmxe s)))) in
  let on := hw VMXON (VmxonRegionPhysical ctx) s0 in
  let s1 := emit (EvVmx VMXON (VmxonRegionPhysical ctx) on) s0 in
  let cl := hw VMCLEAR (VmcsRegionPhysical ctx) s1 in
  let s2 := emit (EvVmx VMCLEAR (VmcsRegionPhysical ctx) cl) s1 in
  let ld := hw VMPTRLD (VmcsRegionPhysical ctx) s2 in
  (att <> [] /\
   map fst att = firstn (List.length att) [VMXON; VMCLEAR; VMPTRLD]) /\
  (forall (k : nat) (i : VmxInstr) (st : Z),
      nth_error att k = Some (i, st) -> st <> 0 ->
      List.length att = S k /\ r = false) /\
  (r = true <->
   List.length att = 3%nat /\ forall i st, In (i, st) att -> st = 0) /\
  (forall (k : nat) (i : VmxInstr) (st : Z),
      nth_error att k = Some (i, st) -> st = 0 -> (k < 2)%nat ->
      (S k < List.length att)%nat) /\
  enter_outcome att r /\
  att = (VMXON, on) ::
        (if on =? 0
         then (VMCLEAR, cl) :: (if cl =? 0 then [(VMPTRLD, ld)] else [])
         else []) /\
  r = ((on =? 0) && (cl =? 0) && (ld =? 0))%bool.
Proof.
  intros r att s0 on s1 cl s2 ld.
  pose proof (VmxEnterRootMode_outcome hw ctx s) as Hout.
  destruct (enter_outcome_shape _ _ Hout) as (Ha & Hb & Hc & Hp).
  destruct (VmxEnterRootMode_attempted hw ctx s) as [Hatt Hr].
  exact (conj Ha (conj Hb (conj Hc (conj Hp (conj Hout (conj Hatt Hr)))))).
Qed.

(** A failure injected at the second instruction: VMCLEAR reports status
    1, so exactly two instructions are attempted and the result is FALSE.
    On a processor where every instruction reports 0, the third
    instruction is reached and the result is TRUE. *)
Lemma VmxEnterRootMode_order_witness :
  (let run := VmxEnterRootMode (hw_fail_at VMCLEAR) context_sample cpu_sample in
   List.length (attempted (issued cpu_sample (snd run))) = 2%nat /\
   fst run = false) /\
  (let run := VmxEnterRootMode hw_ok context_sample cpu_sample in
   (2 < List.length (attempted (issued cpu_sample (snd run))))%nat /\
   fst run = true).
Proof.
  split; [|split].
  - apply (proj1 (proj2 (VmxEnterRootMode_order
                           (hw_fail_at VMCLEAR) context_sample cpu_sample))
             1%nat VMCLEAR 1).
    + reflexivity.
    + discriminate.
  - apply (proj1 (proj2 (proj2 (proj2
             (VmxEnterRootMode_order hw_ok context_sample cpu_sample))))
             1%nat VMCLEAR 0).
    + reflexivity.
    + reflexivity.
    + lia.
  - apply (proj2 (proj1 (proj2 (proj2
             (VmxEnterRootMode_order hw_ok context_sample cpu_sample))))).
    split; [reflexivity|].
    intros i st [H|[H|[H|[]]]]; now inversion H.
Defined.

(** C4, as stated, fails: when VMCLEAR reports status 1, it is the only
    instruction [VmxExitRootMode] attempts; VMXOFF is not issued. *)
Lemma VmxExitRootMode_clear_failure_skips_off :
  let run := VmxExitRootMode (hw_fail_at VMCLEAR) context_sample cpu_sample in
  attempted (issued cpu_sample (snd run)) = [(VMCLEAR, 1)] /\
  ~ In VMXOFF (map fst (attempted (issued cpu_sample (snd run)))).
Proof.
  split; [reflexivity|].
  cbn; intros [H|[]]; discriminate H.
Qed.

(** C4 (amended): [VmxExitRootMode] always attempts VMCLEAR first.  When
    VMCLEAR reports success, VMXOFF is attempted next and the routine
    returns TRUE; when VMCLEAR reports failure, nothing else is attempted
    and the routine returns FALSE. *)
Theorem VmxExitRootMode_order
  (hw : StatusOracle) (ctx : VMM_PROCESSOR_CONTEXT) (s : Cpu) :
  let st := hw VMCLEAR (VmcsRegionPhysical ctx) s in
  let r := fst (VmxExitRootMode hw ctx s) in
  let att := attempted (issued s (snd (VmxExitRootMode hw ctx s))) in
  (st = 0 -> att = [(VMCLEAR, 0); (VMXOFF, 0)] /\ r = true) /\
  (st <> 0 -> att = [(VMCLEAR, st)] /\ r = false).
Proof.
  unfold VmxExitRootMode; run_hw.
  destruct (Z.eqb_spec (hw VMCLEAR (VmcsRegionPhysical ctx) s) 0) as [E|E];
    cbn [negb fst snd]; (split; intros H; [|]); try contradiction;
    erewrite issued_app by (flatten_trace; reflexivity);
    cbn; rewrite ?E; now split.
Qed.

(** On a processor where every instruction succeeds, teardown issues
    VMCLEAR and then VMXOFF. *)
Lemma VmxExitRootMode_order_witness :
  let run := VmxExitRootMode hw_ok context_sample cpu_sample in
  attempted (issued cpu_sample (snd run)) = [(VMCLEAR, 0); (VMXOFF, 0)] /\
  fst run = true.
Proof.
  apply (proj1 (VmxExitRootMode_order hw_ok context_sample cpu_sample)).
  reflexivity.
Defined.

(** ** Segment translation: results *)

Section Translation.

Variable mem : Memory.
Variable out : VMX_SEGMENT_DESCRIPTOR.
Variable gdtr : SEGMENT_DESCRIPTOR_REGISTER_64.
Variable sel : SEGMENT_SELECTOR.
Variable clearRpl : bool.

Let os := mem (OsSegmentDescriptor_address gdtr sel).

(** The structure on return, member by member. *)
Lemma VmxGetSegmentDescriptorFromSelector_run :
  VmxGetSegmentDescriptorFromSelector mem out gdtr sel clearRpl =
  {| Selector :=
       Flags (if clearRpl then set_RequestPrivilegeLevel 0 sel else sel);
     BaseAddress := Z.land (base_combined os) 0xFFFFFFFF;
     SegmentLimit := uint32_of (limit_combined os);
     AccessRights :=
       {| Type_ := bitfield 4 (Os_Type os);
          DescriptorType := bitfield 1 (Os_DescriptorType os);
          DescriptorPrivilegeLevel :=
            bitfield 2 (Os_DescriptorPrivilegeLevel os);
          Present := bitfield 1 (Os_Present os);
          AvailableBit := bitfield 1 (System os);
          LongMode := bitfield 1 (Os_LongMode os);
          DefaultBig := bitfield 1 (Os_DefaultBig os);
          Granularity := bitfield 1 (Os_Granularity os);
          Unusable := 0 |} |}.
Proof.
  unfold VmxGetSegmentDescriptorFromSelector.
  destruct ((Flags sel =? 0) || negb (Table sel =? 0)); reflexivity.
Qed.

End Translation.

Lemma bitfield_small (w v : Z) : 0 <= w -> 0 <= v < 2 ^ w -> bitfield w v = v.
Proof.
  intros Hw Hv; unfold bitfield.
  rewrite Z.land_ones by assumption. now apply Z.mod_small.
Qed.

Lemma lor_below (w a b : Z) :
  0 <= w -> 0 <= a < 2 ^ w -> 0 <= b < 2 ^ w -> 0 <= Z.lor a b < 2 ^ w.
Proof.
  intros Hw Ha Hb.
  assert (Ha' : Z.land a (Z.ones w) = a)
    by (rewrite Z.land_ones by lia; now apply Z.mod_small).
  assert (Hb' : Z.land b (Z.ones w) = b)
    by (rewrite Z.land_ones by lia; now apply Z.mod_small).
  rewrite <- Ha', <- Hb', <- Z.land_lor_distr_l, Z.land_ones by lia.
  apply Z.mod_pos_bound; lia.
Qed.

(** On a well-formed native descriptor whose upper base field holds a
    byte, the 32-bit mask leaves the combined base as it is. *)
Lemma base_combined_range (d : SEGMENT_DESCRIPTOR_64) :
  wf_descriptor d -> BaseAddressUpper d < 2 ^ 8 ->
  Z.land (base_combined d) 0xFFFFFFFF = base_combined d.
Proof.
  intros (_ & Hl & Hm & _ & _ & _ & _ & _ & _ & _ & _ & _ & _ & Hu) Hu8.
  change 0xFFFFFFFF with (Z.ones 32).
  rewrite Z.land_ones by lia. apply Z.mod_small.
  unfold base_combined; rewrite !Z.shiftl_mul_pow2 by lia.
  apply lor_below; [lia|apply lor_below|]; lia.
Qed.

(** On a well-formed native descriptor no store truncates: the limit is
    the 20-bit concatenation of its two fields and the access rights are
    the descriptor's flags, copied. *)
Lemma VmxGetSegmentDescriptorFromSelector_exact
  (mem : Memory) (out : VMX_SEGMENT_DESCRIPTOR)
  (gdtr : SEGMENT_DESCRIPTOR_REGISTER_64) (sel : SEGMENT_SELECTOR)
  (clearRpl : bool) :
  let os := mem (OsSegmentDescriptor_address gdtr sel) in
  let r := VmxGetSegmentDescriptorFromSelector mem out gdtr sel clearRpl in
  wf_descriptor os ->
  SegmentLimit r = limit_combined os /\ 0 <= SegmentLimit r < 2 ^ 20 /\
  AccessRights r =
    mkAccessRights (Os_Type os) (Os_DescriptorType os)
      (Os_DescriptorPrivilegeLevel os) (Os_Present os) (System os)
      (Os_LongMode os) (Os_DefaultBig os) (Os_Granularity os) 0.
Proof.
  cbv zeta.
  intros (Hll & _ & _ & Ht & Hs & Hd & Hp & Hlh & Ha & Hl & Hb & Hg & _ & _).
  rewrite VmxGetSegmentDescriptorFromSelector_run; cbn [SegmentLimit AccessRights].
  assert (Hlim : 0 <= limit_combined (mem (OsSegmentDescriptor_address gdtr sel))
                 < 2 ^ 20).
  { unfold limit_combined; rewrite Z.shiftl_mul_pow2 by lia.
    apply lor_below; lia. }
  unfold uint32_of; rewrite Z.mod_small by lia.
  rewrite !bitfield_small by lia.
  repeat split; lia.
Qed.

(** The three fields of a selector partition its 16 bits, and clearing
    the RPL keeps it a 16-bit value: it subtracts the RPL. *)
Lemma selector_fields (s : SEGMENT_SELECTOR) :
  wf_selector s ->
  Flags s = Index s * 8 + Table s * 4 + RequestPrivilegeLevel s.
Proof.
  unfold wf_selector, Index, Table, RequestPrivilegeLevel; intros H.
  change 0x1FFF with (Z.ones 13); change 3 with (Z.ones 2) at 2;
    change 1 with (Z.ones 1).
  rewrite !Z.land_ones, !Z.shiftr_div_pow2 by lia.
  change (2 ^ 13) with 8192; change (2 ^ 3) with 8; change (2 ^ 2) with 4;
    change (2 ^ 1) with 2.
  Z.div_mod_to_equations; lia.
Qed.

Lemma set_RequestPrivilegeLevel_0 (s : SEGMENT_SELECTOR) :
  Flags (set_RequestPrivilegeLevel 0 s) = Flags s - RequestPrivilegeLevel s.
Proof.
  unfold set_RequestPrivilegeLevel, RequestPrivilegeLevel; cbn [Flags].
  change (Z.land 0 3) with 0; rewrite Z.lor_0_r.
  rewrite Z.sub_nocarry_ldiff.
  - apply Z.bits_inj'; intros n _.
    rewrite !Z.ldiff_spec, Z.land_spec.
    destruct (Z.testbit (Flags s) n), (Z.testbit 3 n); reflexivity.
  - apply Z.bits_inj'; intros n _.
    rewrite Z.ldiff_spec, Z.land_spec, Z.bits_0.
    destruct (Z.testbit (Flags s) n), (Z.testbit 3 n); reflexivity.
Qed.

Lemma set_RequestPrivilegeLevel_wf (s : SEGMENT_SELECTOR) :
  wf_selector s -> wf_selector (set_RequestPrivilegeLevel 0 s).
Proof.
  unfold wf_selector; rewrite set_RequestPrivilegeLevel_0; intros H.
  unfold RequestPrivilegeLevel.
  change 3 with (Z.ones 2); rewrite Z.land_ones by lia.
  change (2 ^ 2) with 4. Z.div_mod_to_equations; lia.
Qed.

Lemma ldiff_3_rpl (f : Z) : Z.land (Z.ldiff f 3) 3 = 0.
Proof.
  apply Z.bits_inj'; intros n _.
  rewrite Z.land_spec, Z.ldiff_spec, Z.bits_0.
  destruct (Z.testbit f n), (Z.testbit 3 n); reflexivity.
Qed.

Lemma ldiff_3_shiftr (f k : Z) :
  2 <= k -> Z.shiftr (Z.ldiff f 3) k = Z.shiftr f k.
Proof.
  intros Hk; apply Z.bits_inj'; intros n Hn.
  rewrite !Z.shiftr_spec, Z.ldiff_spec by assumption.
  change 3 with (Z.ones 2).
  rewrite Z.ones_spec_high by lia.
  now rewrite andb_true_r.
Qed.

(** C3: whatever the selector (null and local-table selectors included),
    the descriptor-table register, the flag, memory and the previous
    contents of the output structure, the "unusable" field of the access
    rights is 0 on return. *)
Theorem VmxGetSegmentDescriptorFromSelector_unusable
  (mem : Memory) (out : VMX_SEGMENT_DESCRIPTOR)
  (gdtr : SEGMENT_DESCRIPTOR_REGISTER_64) (sel : SEGMENT_SELECTOR)
  (clearRpl : bool) :
  Unusable (AccessRights
    (VmxGetSegmentDescriptorFromSelector mem out gdtr sel clearRpl)) = 0.
Proof. now rewrite VmxGetSegmentDescriptorFromSelector_run. Qed.

(** C5: the native descriptor is read at [base + index * 8], [base] being
    the base of the descriptor-table register passed in (the global
    table), for every selector, null or local-table ones included: the
    result is the one obtained from a memory that holds that descriptor
    everywhere, and its base, limit and type are those of that
    descriptor. *)
Theorem VmxGetSegmentDescriptorFromSelector_reads
  (mem : Memory) (out : VMX_SEGMENT_DESCRIPTOR)
  (gdtr : SEGMENT_DESCRIPTOR_REGISTER_64) (sel : SEGMENT_SELECTOR)
  (clearRpl : bool) :
  let os := mem (Gdt_BaseAddress gdtr + Index sel * 8) in
  let r := VmxGetSegmentDescriptorFromSelector mem out gdtr sel clearRpl in
  r = VmxGetSegmentDescriptorFromSelector (fun _ => os) out gdtr sel clearRpl /\
  BaseAddress r = Z.land (base_combined os) 0xFFFFFFFF /\
  SegmentLimit r = uint32_of (limit_combined os) /\
  Type_ (AccessRights r) = bitfield 4 (Os_Type os) /\
  Present (AccessRights r) = bitfield 1 (Os_Present os).
Proof.
  cbv zeta; rewrite !VmxGetSegmentDescriptorFromSelector_run.
  repeat split.
Qed.

(** C6: with ClearRPL set, the selector stored in the output has its RPL
    bits at 0 and the table indicator and index of the input (whatever the
    input's RPL bits were, non-zero included); with ClearRPL not set, it
    is the input selector value, unchanged. *)
Theorem VmxGetSegmentDescriptorFromSelector_selector
  (mem : Memory) (out : VMX_SEGMENT_DESCRIPTOR)
  (gdtr : SEGMENT_DESCRIPTOR_REGISTER_64) (sel : SEGMENT_SELECTOR) :
  let cleared :=
    mkSelector (Selector
      (VmxGetSegmentDescriptorFromSelector mem out gdtr sel true)) in
  (RequestPrivilegeLevel cleared = 0 /\
   Table cleared = Table sel /\
   Index cleared = Index sel) /\
  Selector (VmxGetSegmentDescriptorFromSelector mem out gdtr sel false) =
  Flags sel.
Proof.
  cbv zeta; rewrite !VmxGetSegmentDescriptorFromSelector_run.
  unfold RequestPrivilegeLevel, Table, Index, set_RequestPrivilegeLevel.
  cbn [Selector Flags]; change (Z.land 0 3) with 0.
  rewrite Z.lor_0_r, ldiff_3_rpl, !ldiff_3_shiftr by lia.
  repeat split.
Qed.

(** C7: when the native descriptor read has BaseAddressLow = 0x1234,
    BaseAddressMiddle = 0x56 and BaseAddressUpper = 0x78, the combined
    value is 0x78561234 already before the 32-bit mask, and the base
    address of the output is 0x78561234. *)
Theorem VmxGetSegmentDescriptorFromSelector_base_example
  (mem : Memory) (out : VMX_SEGMENT_DESCRIPTOR)
  (gdtr : SEGMENT_DESCRIPTOR_REGISTER_64) (sel : SEGMENT_SELECTOR)
  (clearRpl : bool) :
  let os := mem (OsSegmentDescriptor_address gdtr sel) in
  BaseAddressLow os = 0x1234 ->
  BaseAddressMiddle os = 0x56 ->
  BaseAddressUpper os = 0x78 ->
  base_combined os = 0x78561234 /\
  BaseAddress (VmxGetSegmentDescriptorFromSelector mem out gdtr sel clearRpl)
  = 0x78561234.
Proof.
  cbv zeta; intros Hl Hm Hu.
  rewrite VmxGetSegmentDescriptorFromSelector_run; cbn [BaseAddress].
  unfold base_combined; rewrite Hl, Hm, Hu. split; reflexivity.
Qed.

Lemma VmxGetSegmentDescriptorFromSelector_base_example_witness :
  BaseAddress (VmxGetSegmentDescriptorFromSelector
                 mem_sample vmx_descriptor_stale gdtr_sample
                 (mkSelector 0x1B) false) = 0x78561234.
Proof.
  apply (VmxGetSegmentDescriptorFromSelector_base_example
           mem_sample vmx_descriptor_stale gdtr_sample (mkSelector 0x1B) false);
    reflexivity.
Defined.

(** C8: when the native descriptor read has SegmentLimitLow = 0xABCD and
    SegmentLimitHigh = 0x3, the segment limit of the output is 0x3ABCD. *)
Theorem VmxGetSegmentDescriptorFromSelector_limit_example
  (mem : Memory) (out : VMX_SEGMENT_DESCRIPTOR)
  (gdtr : SEGMENT_DESCRIPTOR_REGISTER_64) (sel : SEGMENT_SELECTOR)
  (clearRpl : bool) :
  let os := mem (OsSegmentDescriptor_address gdtr sel) in
  SegmentLimitLow os = 0xABCD ->
  SegmentLimitHigh os = 0x3 ->
  limit_combined os = 0x3ABCD /\
  SegmentLimit (VmxGetSegmentDescriptorFromSelector mem out gdtr sel clearRpl)
  = 0x3ABCD.
Proof.
  cbv zeta; intros Hl Hh.
  rewrite VmxGetSegmentDescriptorFromSelector_run; cbn [SegmentLimit].
  unfold limit_combined; rewrite Hl, Hh. split; reflexivity.
Qed.

Lemma VmxGetSegmentDescriptorFromSelector_limit_example_witness :
  SegmentLimit (VmxGetSegmentDescriptorFromSelector
                  mem_sample vmx_descriptor_stale gdtr_sample
                  (mkSelector 0x1B) true) = 0x3ABCD.
Proof.
  apply (VmxGetSegmentDescriptorFromSelector_limit_example
           mem_sample vmx_descriptor_stale gdtr_sample (mkSelector 0x1B) true);
    reflexivity.
Defined.

(** C9: the translation is determined by its three value arguments and by
    the descriptor stored in the table slot the selector indexes.  Two
    invocations with the same selector, register and flag, on memories
    that agree on that slot, return identical structures, whatever the
    output structure held before each call; in particular a second call
    on the structure the first one filled returns it unchanged. *)
Theorem VmxGetSegmentDescriptorFromSelector_deterministic
  (mem1 mem2 : Memory) (out1 out2 : VMX_SEGMENT_DESCRIPTOR)
  (gdtr : SEGMENT_DESCRIPTOR_REGISTER_64) (sel : SEGMENT_SELECTOR)
  (clearRpl : bool) :
  mem1 (OsSegmentDescriptor_address gdtr sel) =
  mem2 (OsSegmentDescriptor_address gdtr sel) ->
  let first := VmxGetSegmentDescriptorFromSelector mem1 out1 gdtr sel clearRpl in
  first = VmxGetSegmentDescriptorFromSelector mem2 out2 gdtr sel clearRpl /\
  first = VmxGetSegmentDescriptorFromSelector mem2 first gdtr sel clearRpl.
Proof.
  cbv zeta; intros Hslot.
  rewrite !VmxGetSegmentDescriptorFromSelector_run, Hslot.
  split; reflexivity.
Qed.

Lemma VmxGetSegmentDescriptorFromSelector_deterministic_witness :
  VmxGetSegmentDescriptorFromSelector
    mem_sample vmx_descriptor_zero gdtr_sample (mkSelector 0x13) true =
  VmxGetSegmentDescriptorFromSelector
    mem_sample_other vmx_descriptor_stale gdtr_sample
    (mkSelector 0x13) true.
Proof.
  apply (VmxGetSegmentDescriptorFromSelector_deterministic
           mem_sample mem_sample_other
           vmx_descriptor_zero vmx_descriptor_stale gdtr_sample
           (mkSelector 0x13) true).
  reflexivity.
Defined.

(** ** Worked examples on the sample table *)

(** A local-table selector (table indicator set, index 3) is still served
    from slot 3 of the table the register designates. *)
Example local_selector_reads_global_table :
  VmxGetSegmentDescriptorFromSelector
    mem_sample vmx_descriptor_stale gdtr_sample (mkSelector 0x1F) false =
  {| Selector := 0x1F; BaseAddress := 0x78561234; SegmentLimit := 0x3ABCD;
     AccessRights := mkAccessRights 3 1 3 1 1 0 1 0 0 |}.
Proof. reflexivity. Qed.

(** The null selector reads slot 0 and comes back usable. *)
Example null_selector_is_usable :
  VmxGetSegmentDescriptorFromSelector
    mem_sample vmx_descriptor_stale gdtr_sample (mkSelector 0) true =
  {| Selector := 0; BaseAddress := 0; SegmentLimit := 0;
     AccessRights := mkAccessRights 0 0 0 0 0 0 0 0 0 |}.
Proof. reflexivity. Qed.

(** The sample records are the contents of the sample table. *)
Example sample_table_contents :
  mem_sample 0x1000 = descriptor_zero /\
  mem_sample 0x1010 = descriptor_code /\
  mem_sample 0x1018 = descriptor_example /\
  mem_sample 0x1040 = descriptor_tss /\
  mem_sample_other 0x1010 = descriptor_code /\
  mem_sample_other 0x1000 <> mem_sample 0x1000.
Proof. repeat split; try reflexivity. discriminate. Qed.

(** The code segment of slot 2, selected with RPL 3, for host state.  The
    upper base field read at slot 2 is the first half of slot 3, and its
    low byte, 0xCD, becomes the top byte of the base. *)
Example host_code_segment :
  VmxGetSegmentDescriptorFromSelector
    mem_sample vmx_descriptor_zero gdtr_sample (mkSelector 0x13) true =
  {| Selector := 0x10; BaseAddress := 0xCD000000; SegmentLimit := 0xFFFFF;
     AccessRights := mkAccessRights 0xB 1 0 1 0 1 0 1 0 |}.
Proof. reflexivity. Qed.

(** A successful entry on the sample processor: the three instructions,
    each against the region it belongs to, after the debug line. *)
Example enter_root_mode_success :
  let run := VmxEnterRootMode hw_ok context_sample cpu_sample in
  fst run = true /\
  attempted (issued cpu_sample (snd run)) =
    [(VMXON, 0); (VMCLEAR, 0); (VMPTRLD, 0)] /\
  map (fun e => match e with EvVmx _ pa _ => pa | _ => 0 end)
      (issued cpu_sample (snd run)) = [0; 0x1000; 0x2000; 0x2000] /\
  Z.testbit (cr4 (snd run)) CR4_VMXE_BIT = true.
Proof. cbv zeta; repeat split. Qed.

(** ** Fixed-bit enforcement: further results *)

Lemma testbit_of_eq (a b n : Z) : a = b -> Z.testbit a n = Z.testbit b n.
Proof. now intros ->. Qed.

Lemma adjust_conforms (x f0 f1 : Z) :
  Z.land f0 f1 = f0 ->
  Z.land (Z.land (Z.lor x f0) f1) f0 = f0 /\
  Z.land (Z.land (Z.lor x f0) f1) f1 = Z.land (Z.lor x f0) f1.
Proof.
  intros H; split; apply Z.bits_inj'; intros n _;
    apply (testbit_of_eq _ _ n) in H;
    rewrite !Z.land_spec, ?Z.lor_spec in *;
    destruct (Z.testbit x n), (Z.testbit f0 n), (Z.testbit f1 n);
    cbn in *; congruence.
Qed.

(** X1: when the processor's masks are consistent (every must-be-1 bit is
    also in the may-be-1 mask), the registers [VmxSetFixedBits] writes
    contain the whole must-be-1 mask and lie within the may-be-1 mask. *)
Theorem VmxSetFixedBits_conforms (s : Cpu) :
  Z.land (msr s IA32_VMX_CR0_FIXED0) (msr s IA32_VMX_CR0_FIXED1)
    = msr s IA32_VMX_CR0_FIXED0 ->
  Z.land (msr s IA32_VMX_CR4_FIXED0) (msr s IA32_VMX_CR4_FIXED1)
    = msr s IA32_VMX_CR4_FIXED0 ->
  let s' := snd (VmxSetFixedBits s) in
  (Z.land (cr0 s') (msr s IA32_VMX_CR0_FIXED0) = msr s IA32_VMX_CR0_FIXED0 /\
   Z.land (cr0 s') (msr s IA32_VMX_CR0_FIXED1) = cr0 s') /\
  (Z.land (cr4 s') (msr s IA32_VMX_CR4_FIXED0) = msr s IA32_VMX_CR4_FIXED0 /\
   Z.land (cr4 s') (msr s IA32_VMX_CR4_FIXED1) = cr4 s').
Proof.
  intros H0 H4; rewrite VmxSetFixedBits_run; cbn.
  split; now apply adjust_conforms.
Qed.

Lemma VmxSetFixedBits_conforms_witness :
  let s' := snd (VmxSetFixedBits cpu_sample) in
  (Z.land (cr0 s') 0x21 = 0x21 /\ Z.land (cr0 s') 0xFFFFFFFF = cr0 s') /\
  (Z.land (cr4 s') 0x2000 = 0x2000 /\ Z.land (cr4 s') 0x3FFFFF = cr4 s').
Proof.
  apply (VmxSetFixedBits_conforms cpu_sample); reflexivity.
Defined.

(** X2: registers that already conform to the masks (they contain the
    must-be-1 mask and lie within the may-be-1 mask) are written back
    unchanged: [VmxSetFixedBits] leaves the processor as it found it. *)
Theorem VmxSetFixedBits_conforming_unchanged (s : Cpu) :
  Z.lor (cr0 s) (msr s IA32_VMX_CR0_FIXED0) = cr0 s ->
  Z.land (cr0 s) (msr s IA32_VMX_CR0_FIXED1) = cr0 s ->
  Z.lor (cr4 s) (msr s IA32_VMX_CR4_FIXED0) = cr4 s ->
  Z.land (cr4 s) (msr s IA32_VMX_CR4_FIXED1) = cr4 s ->
  snd (VmxSetFixedBits s) = s.
Proof.
  intros Ha Hb Hc Hd; rewrite VmxSetFixedBits_run; cbn.
  rewrite Ha, Hb, Hc, Hd. now destruct s.
Qed.

Lemma VmxSetFixedBits_conforming_unchanged_witness :
  snd (VmxSetFixedBits cpu_conforming) = cpu_conforming.
Proof.
  apply (VmxSetFixedBits_conforming_unchanged cpu_conforming); reflexivity.
Defined.

Lemma uint64_ldiff (a b : Z) : uint64 a -> uint64 (Z.ldiff a b).
Proof.
  rewrite !uint64_mask; intros H.
  apply Z.bits_inj'; intros n _.
  apply (testbit_of_eq _ _ n) in H.
  rewrite !Z.land_spec, ?Z.ldiff_spec in *.
  destruct (Z.testbit a n), (Z.testbit b n), (Z.testbit (Z.ones 64) n);
    cbn in *; congruence.
Qed.

Lemma wf_cpu_emit (e : Event) (s : Cpu) : wf_cpu s -> wf_cpu (emit e s).
Proof. intros H; exact H. Qed.

Lemma wf_cpu_enable (s : Cpu) : wf_cpu s -> wf_cpu (snd (ArchEnableVmxe s)).
Proof.
  intros (H0 & H4 & Hm); split; [exact H0|split; [cbn|exact Hm]].
  rewrite Z.setbit_spec'. apply uint64_lor; [assumption|].
  unfold uint64, CR4_VMXE_BIT; lia.
Qed.

Lemma wf_cpu_disable (s : Cpu) : wf_cpu s -> wf_cpu (snd (ArchDisableVmxe s)).
Proof.
  intros (H0 & H4 & Hm); split; [exact H0|split; [cbn|exact Hm]].
  rewrite Z.clearbit_spec'. now apply uint64_ldiff.
Qed.

(** ** Root-mode entry and exit: further results *)

(** Every run of [VmxEnterRootMode] appends one of four event lists. *)
Lemma VmxEnterRootMode_issued
  (hw : StatusOracle) (ctx : VMM_PROCESSOR_CONTEXT) (s : Cpu) :
  let run := VmxEnterRootMode hw ctx s in
  let evs := issued s (snd run) in
  let dbg := EvLogDebug "VmxOnRegion[#%i]: (V) 0x%llx / (P) 0x%llx [%i]" in
  let on := EvVmx VMXON (VmxonRegionPhysical ctx) in
  let cl := EvVmx VMCLEAR (VmcsRegionPhysical ctx) in
  let ld := EvVmx VMPTRLD (VmcsRegionPhysical ctx) in
  (exists st, st <> 0 /\ fst run = false /\
              evs = [dbg; on st; EvLogError "VMXON failed."]) \/
  (exists st, st <> 0 /\ fst run = false /\
              evs = [dbg; on 0; cl st; EvLogError "VMCLEAR failed."]) \/
  (exists st, st <> 0 /\ fst run = false /\
              evs = [dbg; on 0; cl 0; ld st; EvLogError "VMPTRLD failed."]) \/
  (fst run = true /\ evs = [dbg; on 0; cl 0; ld 0]).
Proof.
  unfold VmxEnterRootMode; run_hw.
  match goal with
  | |- context [negb (?st =? 0)] =>
      destruct (Z.eqb_spec st 0) as [->|Hon]; cbn [negb]
  end.
  2:{ left; eexists; split; [exact Hon|]; cbn [fst snd]; split; [reflexivity|].
      apply issued_app; flatten_trace; reflexivity. }
  match goal with
  | |- context [negb (?st =? 0)] =>
      destruct (Z.eqb_spec st 0) as [->|Hcl]; cbn [negb]
  end.
  2:{ right; left; eexists; split; [exact Hcl|]; cbn [fst snd];
      split; [reflexivity|].
      apply issued_app; flatten_trace; reflexivity. }
  match goal with
  | |- context [negb (?st =? 0)] =>
      destruct (Z.eqb_spec st 0) as [->|Hld]; cbn [negb]
  end.
  2:{ right; right; left; eexists; split; [exact Hld|]; cbn [fst snd];
      split; [reflexivity|].
      apply issued_app; flatten_trace; reflexivity. }
  right; right; right; cbn [fst snd]; split; [reflexivity|].
  apply issued_app; flatten_trace; reflexivity.
Qed.

(** X3: every instruction [VmxEnterRootMode] issues goes to the region it
    belongs to: VMXON against the physical address of the VMXON region,
    VMCLEAR and VMPTRLD against the physical address of the VMCS region. *)
Theorem VmxEnterRootMode_operands
  (hw : StatusOracle) (ctx : VMM_PROCESSOR_CONTEXT) (s : Cpu)
  (i : VmxInstr) (pa st : Z) :
  In (EvVmx i pa st) (issued s (snd (VmxEnterRootMode hw ctx s))) ->
  (i = VMXON /\ pa = VmxonRegionPhysical ctx) \/
  ((i = VMCLEAR \/ i = VMPTRLD) /\ pa = VmcsRegionPhysical ctx).
Proof.
  destruct (VmxEnterRootMode_issued hw ctx s)
    as [(x & _ & _ & ->)|[(x & _ & _ & ->)|[(x & _ & _ & ->)|(_ & ->)]]];
    cbn [In]; intros H;
    repeat match type of H with
    | _ \/ _ => destruct H as [H|H]
    | False => contradiction
    | _ = EvVmx _ _ _ => inversion H; subst; clear H; auto
    | _ => discriminate H
    end.
Qed.

Lemma VmxEnterRootMode_operands_witness :
  (VMPTRLD = VMXON /\ 0x2000 = VmxonRegionPhysical context_sample) \/
  ((VMPTRLD = VMCLEAR \/ VMPTRLD = VMPTRLD) /\
   0x2000 = VmcsRegionPhysical context_sample).
Proof.
  apply (VmxEnterRootMode_operands hw_ok context_sample cpu_sample
           VMPTRLD 0x2000 0).
  cbn. do 3 right. left. reflexivity.
Defined.

(** X4: [VmxEnterRootMode] logs no error line when it returns TRUE; when
    it returns FALSE it logs exactly one, as the last event of the run,
    and that line names the last instruction attempted, which is the one
    that reported a non-zero status. *)
Theorem VmxEnterRootMode_error_line
  (hw : StatusOracle) (ctx : VMM_PROCESSOR_CONTEXT) (s : Cpu) :
  let run := VmxEnterRootMode hw ctx s in
  let evs := issued s (snd run) in
  (fst run = true -> error_lines evs = []) /\
  (fst run = false ->
   exists (i : VmxInstr) (st : Z) (line : string),
     last (attempted evs) (VMXOFF, 0) = (i, st) /\ st <> 0 /\
     line = match i with
            | VMXON => "VMXON failed."
            | VMCLEAR => "VMCLEAR failed."
            | VMPTRLD => "VMPTRLD failed."
            | VMXOFF => ""
            end%string /\
     error_lines evs = [line] /\
     last evs (EvLogDebug "") = EvLogError line).
Proof.
  cbv zeta.
  destruct (VmxEnterRootMode_issued hw ctx s)
    as [(x & Hx & -> & ->)|[(x & Hx & -> & ->)|[(x & Hx & -> & ->)|(-> & ->)]]];
    (split; [try discriminate; reflexivity|]); try discriminate; intros _.
  - exists VMXON, x; eexists; repeat split; assumption.
  - exists VMCLEAR, x; eexists; repeat split; assumption.
  - exists VMPTRLD, x; eexists; repeat split; assumption.
Qed.

Lemma VmxEnterRootMode_error_line_witness :
  let run := VmxEnterRootMode (hw_fail_at VMPTRLD) context_sample cpu_sample in
  let evs := issued cpu_sample (snd run) in
  exists (i : VmxInstr) (st : Z) (line : string),
    last (attempted evs) (VMXOFF, 0) = (i, st) /\ st <> 0 /\
    line = match i with
           | VMXON => "VMXON failed."
           | VMCLEAR => "VMCLEAR failed."
           | VMPTRLD => "VMPTRLD failed."
           | VMXOFF => ""
           end%string /\
    error_lines evs = [line] /\
    last evs (EvLogDebug "") = EvLogError line.
Proof.
  apply (proj2 (VmxEnterRootMode_error_line
                  (hw_fail_at VMPTRLD) context_sample cpu_sample)).
  reflexivity.
Defined.

Lemma VmxEnterRootMode_registers
  (hw : StatusOracle) (ctx : VMM_PROCESSOR_CONTEXT) (s : Cpu) :
  let s' := snd (VmxEnterRootMode hw ctx s) in
  let adjusted := snd (VmxSetFixedBits (snd (ArchEnableVmxe s))) in
  cr0 s' = cr0 adjusted /\ cr4 s' = cr4 adjusted /\ msr s' = msr s.
Proof.
  unfold VmxEnterRootMode; run_hw.
  repeat match goal with
  | |- context [negb (?st =? 0)] =>
      destruct (Z.eqb_spec st 0) as [->|]; cbn [negb]
  end; cbn; repeat split.
Qed.

(** X5: [VmxEnterRootMode] never undoes what it did.  Whatever the three
    instructions report, VMXOFF is not issued and the control registers
    are left as [ArchEnableVmxe] followed by [VmxSetFixedBits] set them;
    the capability registers are not written. *)
Theorem VmxEnterRootMode_no_rollback
  (hw : StatusOracle) (ctx : VMM_PROCESSOR_CONTEXT) (s : Cpu) :
  let s' := snd (VmxEnterRootMode hw ctx s) in
  let adjusted := snd (VmxSetFixedBits (snd (ArchEnableVmxe s))) in
  ~ In VMXOFF (map fst (attempted (issued s s'))) /\
  cr0 s' = cr0 adjusted /\ cr4 s' = cr4 adjusted /\ msr s' = msr s.
Proof.
  cbv zeta; split; [|apply VmxEnterRootMode_registers].
  destruct (VmxEnterRootMode_issued hw ctx s)
    as [(x & _ & _ & ->)|[(x & _ & _ & ->)|[(x & _ & _ & ->)|(_ & ->)]]];
    cbn; intuition discriminate.
Qed.

(** X6: after [VmxEnterRootMode], successful or not, CR4.VMXE is set
    exactly when the CR4 may-be-1 mask allows it: the bit is enabled
    first and the fixed bits are enforced afterwards. *)
Theorem VmxEnterRootMode_vmxe
  (hw : StatusOracle) (ctx : VMM_PROCESSOR_CONTEXT) (s : Cpu) :
  Z.testbit (cr4 (snd (VmxEnterRootMode hw ctx s))) CR4_VMXE_BIT =
  Z.testbit (msr s IA32_VMX_CR4_FIXED1) CR4_VMXE_BIT.
Proof.
  destruct (VmxEnterRootMode_registers hw ctx s) as (_ & -> & _).
  rewrite VmxSetFixedBits_run; cbn [snd cr4 msr ArchEnableVmxe set_cr4].
  rewrite lor_land_bit, Z.setbit_eq by (unfold CR4_VMXE_BIT; lia).
  reflexivity.
Qed.

(** Every run of [VmxExitRootMode] ends in one of two ways. *)
Lemma VmxExitRootMode_issued
  (hw : StatusOracle) (ctx : VMM_PROCESSOR_CONTEXT) (s : Cpu) :
  let run := VmxExitRootMode hw ctx s in
  let st := hw VMCLEAR (VmcsRegionPhysical ctx) s in
  (st <> 0 /\ fst run = false /\
   trace (snd run) = trace s ++ [EvVmx VMCLEAR (VmcsRegionPhysical ctx) st;
                                 EvLogError "VMCLEAR failed."] /\
   cr0 (snd run) = cr0 s /\ cr4 (snd run) = cr4 s /\ msr (snd run) = msr s) \/
  (st = 0 /\ fst run = true /\
   trace (snd run) = trace s ++ [EvVmx VMCLEAR (VmcsRegionPhysical ctx) 0;
                                 EvVmx VMXOFF 0 0] /\
   cr0 (snd run) = cr0 s /\
   cr4 (snd run) = Z.clearbit (cr4 s) CR4_VMXE_BIT /\
   msr (snd run) = msr s).
Proof.
  unfold VmxExitRootMode; run_hw.
  destruct (Z.eqb_spec (hw VMCLEAR (VmcsRegionPhysical ctx) s) 0) as [E|E];
    cbn [negb fst snd]; [right|left]; (split; [exact E|]);
    flatten_trace; rewrite ?E; repeat split.
Qed.

(** X7: when [VmxExitRootMode] returns FALSE, VMCLEAR against the VMCS
    region was the only instruction issued and reported a non-zero
    status, one error line naming VMCLEAR was logged, and the control
    registers are untouched: CR4.VMXE is not cleared. *)
Theorem VmxExitRootMode_failure
  (hw : StatusOracle) (ctx : VMM_PROCESSOR_CONTEXT) (s : Cpu) :
  fst (VmxExitRootMode hw ctx s) = false ->
  let s' := snd (VmxExitRootMode hw ctx s) in
  let st := hw VMCLEAR (VmcsRegionPhysical ctx) s in
  st <> 0 /\
  issued s s' = [EvVmx VMCLEAR (VmcsRegionPhysical ctx) st;
                 EvLogError "VMCLEAR failed."] /\
  cr0 s' = cr0 s /\ cr4 s' = cr4 s.
Proof.
  cbv zeta; intros Hr.
  destruct (VmxExitRootMode_issued hw ctx s)
    as [(Hst & _ & Ht & H0 & H4 & _)|(_ & Ht & _)]; [|congruence].
  repeat split; try assumption. now apply issued_app.
Qed.

Lemma VmxExitRootMode_failure_witness :
  let s' := snd (VmxExitRootMode (hw_fail_at VMCLEAR) context_sample
                                 cpu_conforming) in
  1 <> 0 /\
  issued cpu_conforming s' = [EvVmx VMCLEAR 0x2000 1;
                              EvLogError "VMCLEAR failed."] /\
  cr0 s' = cr0 cpu_conforming /\ cr4 s' = cr4 cpu_conforming.
Proof.
  apply (VmxExitRootMode_failure (hw_fail_at VMCLEAR) context_sample
           cpu_conforming).
  reflexivity.
Defined.

(** X8: when [VmxExitRootMode] returns TRUE, it issued VMCLEAR against
    the VMCS region, with status 0, and then VMXOFF, and logged nothing;
    CR0 is untouched, and CR4 differs from its previous value in VMXE
    only, which is clear. *)
Theorem VmxExitRootMode_success
  (hw : StatusOracle) (ctx : VMM_PROCESSOR_CONTEXT) (s : Cpu) :
  fst (VmxExitRootMode hw ctx s) = true ->
  let s' := snd (VmxExitRootMode hw ctx s) in
  issued s s' = [EvVmx VMCLEAR (VmcsRegionPhysical ctx) 0; EvVmx VMXOFF 0 0] /\
  cr0 s' = cr0 s /\
  Z.testbit (cr4 s') CR4_VMXE_BIT = false /\
  (forall i, i <> CR4_VMXE_BIT -> Z.testbit (cr4 s') i = Z.testbit (cr4 s) i).
Proof.
  cbv zeta; intros Hr.
  destruct (VmxExitRootMode_issued hw ctx s)
    as [(_ & Hf & _)|(_ & _ & Ht & H0 & H4 & _)]; [congruence|].
  rewrite H4; repeat split.
  - now apply issued_app.
  - assumption.
  - apply Z.clearbit_eq.
  - intros i Hi. apply Z.clearbit_neq. congruence.
Qed.

Lemma VmxExitRootMode_success_witness :
  let s' := snd (VmxExitRootMode hw_ok context_sample cpu_conforming) in
  issued cpu_conforming s' = [EvVmx VMCLEAR 0x2000 0; EvVmx VMXOFF 0 0] /\
  cr0 s' = cr0 cpu_conforming /\
  Z.testbit (cr4 s') CR4_VMXE_BIT = false /\
  (forall i, i <> CR4_VMXE_BIT ->
             Z.testbit (cr4 s') i = Z.testbit (cr4 cpu_conforming) i).
Proof.
  apply (VmxExitRootMode_success hw_ok context_sample cpu_conforming).
  reflexivity.
Defined.

Lemma issued_trans (a b c : Cpu) (e1 e2 : list Event) :
  trace b = trace a ++ e1 -> trace c = trace b ++ e2 ->
  issued a c = e1 ++ e2.
Proof.
  intros Hb Hc; apply issued_app. now rewrite Hc, Hb, app_assoc.
Qed.

(** X9: entry followed by teardown.  When [VmxEnterRootMode] returns TRUE
    and [VmxExitRootMode], run next with the same context, returns TRUE,
    the processor has seen VMXON, VMCLEAR, VMPTRLD, VMCLEAR, VMXOFF in
    this order, each with status 0 (VMXON on the VMXON region, the rest of
    the operands on the VMCS region), no error line was logged, CR0 is as
    entry left it, and CR4.VMXE is clear. *)
Theorem enter_then_exit
  (hw : StatusOracle) (ctx : VMM_PROCESSOR_CONTEXT) (s : Cpu) :
  let entered := VmxEnterRootMode hw ctx s in
  let left := VmxExitRootMode hw ctx (snd entered) in
  fst entered = true -> fst left = true ->
  issued s (snd left) =
    [EvLogDebug "VmxOnRegion[#%i]: (V) 0x%llx / (P) 0x%llx [%i]";
     EvVmx VMXON (VmxonRegionPhysical ctx) 0;
     EvVmx VMCLEAR (VmcsRegionPhysical ctx) 0;
     EvVmx VMPTRLD (VmcsRegionPhysical ctx) 0;
     EvVmx VMCLEAR (VmcsRegionPhysical ctx) 0;
     EvVmx VMXOFF 0 0] /\
  cr0 (snd left) = cr0 (snd entered) /\
  Z.testbit (cr4 (snd left)) CR4_VMXE_BIT = false.
Proof.
  cbv zeta; intros He Hl.
  pose proof (VmxEnterRootMode_extends hw ctx s) as Hext; cbv zeta in Hext.
  destruct (VmxEnterRootMode_issued hw ctx s)
    as [(x & _ & Hf & _)|[(x & _ & Hf & _)|[(x & _ & Hf & _)|(_ & Hevs)]]];
    try congruence.
  rewrite Hevs in Hext.
  destruct (VmxExitRootMode_issued hw ctx (snd (VmxEnterRootMode hw ctx s)))
    as [(_ & Hf & _)|(_ & _ & Ht & H0 & H4 & _)]; [congruence|].
  split; [|split].
  - now rewrite (issued_trans _ _ _ _ _ Hext Ht).
  - assumption.
  - rewrite H4. apply Z.clearbit_eq.
Qed.

Lemma enter_then_exit_witness :
  let entered := VmxEnterRootMode hw_ok context_sample cpu_sample in
  let left := VmxExitRootMode hw_ok context_sample (snd entered) in
  issued cpu_sample (snd left) =
    [EvLogDebug "VmxOnRegion[#%i]: (V) 0x%llx / (P) 0x%llx [%i]";
     EvVmx VMXON 0x1000 0; EvVmx VMCLEAR 0x2000 0; EvVmx VMPTRLD 0x2000 0;
     EvVmx VMCLEAR 0x2000 0; EvVmx VMXOFF 0 0] /\
  cr0 (snd left) = cr0 (snd entered) /\
  Z.testbit (cr4 (snd left)) CR4_VMXE_BIT = false.
Proof.
  apply (enter_then_exit hw_ok context_sample cpu_sample); reflexivity.
Defined.

(** X10: the three processor-facing functions keep the registers 64-bit
    words: from a processor whose control registers and model-specific
    registers are all below 2^64, each of them ends in such a processor,
    whatever the instructions report. *)
Theorem root_mode_keeps_words
  (hw : StatusOracle) (ctx : VMM_PROCESSOR_CONTEXT) (s : Cpu) :
  wf_cpu s ->
  wf_cpu (snd (VmxSetFixedBits s)) /\
  wf_cpu (snd (VmxEnterRootMode hw ctx s)) /\
  wf_cpu (snd (VmxExitRootMode hw ctx s)).
Proof.
  intros Hs; split; [now apply VmxSetFixedBits_wf|split].
  - pose proof (VmxSetFixedBits_wf _ (wf_cpu_enable _ Hs)) as (H0 & H4 & Hm).
    destruct (VmxEnterRootMode_registers hw ctx s) as (E0 & E4 & Em).
    unfold wf_cpu; rewrite E0, E4, Em.
    split; [exact H0|split; [exact H4|apply Hs]].
  - pose proof (wf_cpu_disable _ Hs) as (_ & H4 & _).
    destruct Hs as (H0 & H4' & Hm).
    destruct (VmxExitRootMode_issued hw ctx s)
      as [(_ & _ & _ & E0 & E4 & Em)|(_ & _ & _ & E0 & E4 & Em)];
      unfold wf_cpu; rewrite E0, E4, Em;
      (split; [exact H0|split; [assumption|exact Hm]]).
Qed.

Lemma wf_cpu_sample : wf_cpu cpu_sample.
Proof.
  split; [|split]; [unfold uint64; cbn; lia ..|].
  intros i; unfold cpu_sample, msr, uint64.
  repeat match goal with
  | |- context [if ?b then _ else _] => destruct b
  end; lia.
Defined.

Lemma root_mode_keeps_words_witness :
  wf_cpu (snd (VmxSetFixedBits cpu_sample)) /\
  wf_cpu (snd (VmxEnterRootMode (hw_fail_at VMCLEAR) context_sample
                                cpu_sample)) /\
  wf_cpu (snd (VmxExitRootMode (hw_fail_at VMCLEAR) context_sample
                               cpu_sample)).
Proof.
  apply (root_mode_keeps_words (hw_fail_at VMCLEAR) context_sample cpu_sample).
  exact wf_cpu_sample.
Defined.

(** ** Segment translation: further results *)

Lemma bitfield_range (w v : Z) : 0 <= w -> 0 <= bitfield w v < 2 ^ w.
Proof.
  intros Hw; unfold bitfield; rewrite Z.land_ones by assumption.
  apply Z.mod_pos_bound; lia.
Qed.

(** X11: the structure returned is always well-formed, whatever memory
    holds at the indexed slot and whatever the output structure held
    before: the base is below 2^32, the limit below 2^32, every
    access-rights field within its width, and "unusable" is 0. *)
Theorem VmxGetSegmentDescriptorFromSelector_ranges
  (mem : Memory) (out : VMX_SEGMENT_DESCRIPTOR)
  (gdtr : SEGMENT_DESCRIPTOR_REGISTER_64) (sel : SEGMENT_SELECTOR)
  (clearRpl : bool) :
  let r := VmxGetSegmentDescriptorFromSelector mem out gdtr sel clearRpl in
  let a := AccessRights r in
  0 <= BaseAddress r < 2 ^ 32 /\ 0 <= SegmentLimit r < 2 ^ 32 /\
  0 <= Type_ a < 2 ^ 4 /\ 0 <= DescriptorType a < 2 /\
  0 <= DescriptorPrivilegeLevel a < 2 ^ 2 /\ 0 <= Present a < 2 /\
  0 <= AvailableBit a < 2 /\ 0 <= LongMode a < 2 /\ 0 <= DefaultBig a < 2 /\
  0 <= Granularity a < 2 /\ Unusable a = 0.
Proof.
  cbv zeta; rewrite VmxGetSegmentDescriptorFromSelector_run.
  cbn [BaseAddress SegmentLimit AccessRights Type_ DescriptorType
       DescriptorPrivilegeLevel Present AvailableBit LongMode DefaultBig
       Granularity Unusable].
  change 0xFFFFFFFF with (Z.ones 32); rewrite Z.land_ones by lia.
  unfold uint32_of.
  repeat match goal with
  | |- 0 <= bitfield ?w _ < _ => apply (bitfield_range w); lia
  | |- 0 <= _ mod _ < _ => apply Z.mod_pos_bound; lia
  | |- _ /\ _ => split
  end.
  reflexivity.
Qed.

Lemma land_shiftl_low (a b k : Z) :
  0 <= k -> 0 <= b < 2 ^ k -> Z.land (Z.shiftl a k) b = 0.
Proof.
  intros Hk Hb; apply Z.bits_inj'; intros n Hn.
  rewrite Z.land_spec, Z.bits_0.
  destruct (Z.lt_ge_cases n k) as [Hlt|Hge].
  - now rewrite Z.shiftl_spec_low.
  - rewrite <- (Z.mod_small b (2 ^ k)) by assumption.
    rewrite Z.mod_pow2_bits_high by lia. apply andb_false_r.
Qed.

Lemma lor_shiftl_add (a b k : Z) :
  0 <= k -> 0 <= b < 2 ^ k -> Z.lor (Z.shiftl a k) b = a * 2 ^ k + b.
Proof.
  intros Hk Hb.
  pose proof (Z.add_lor_land (Z.shiftl a k) b) as H.
  rewrite land_shiftl_low, Z.add_0_r in H by assumption.
  now rewrite H, Z.shiftl_mul_pow2.
Qed.

Lemma base_combined_sum (d : SEGMENT_DESCRIPTOR_64) :
  0 <= BaseAddressLow d < 2 ^ 16 -> 0 <= BaseAddressMiddle d < 2 ^ 8 ->
  base_combined d =
  BaseAddressUpper d * 2 ^ 24 + BaseAddressMiddle d * 2 ^ 16 + BaseAddressLow d.
Proof.
  intros Hl Hm; unfold base_combined.
  change (2 ^ 16) with 65536 in *; change (2 ^ 8) with 256 in *.
  rewrite (lor_shiftl_add (BaseAddressUpper d)) by
    (rewrite ?Z.shiftl_mul_pow2 by lia;
     change (2 ^ 24) with 16777216; change (2 ^ 16) with 65536; lia).
  rewrite Z.shiftl_mul_pow2 by lia.
  change (2 ^ 24) with 16777216; change (2 ^ 16) with 65536.
  replace (BaseAddressUpper d * 16777216 + BaseAddressMiddle d * 65536)
    with (Z.shiftl (BaseAddressUpper d * 256 + BaseAddressMiddle d) 16)
    by (rewrite Z.shiftl_mul_pow2 by lia; change (2 ^ 16) with 65536; lia).
  rewrite lor_shiftl_add by (change (2 ^ 16) with 65536; lia).
  now rewrite Z.shiftl_mul_pow2 by lia.
Qed.

(** X12: when the low and middle base fields of the descriptor read are
    within their 16 and 8 bits, the base address of the output is the
    concatenation of the low byte of BaseAddressUpper, BaseAddressMiddle
    and BaseAddressLow; bits of BaseAddressUpper above its low byte do not
    reach the output. *)
Theorem VmxGetSegmentDescriptorFromSelector_base
  (mem : Memory) (out : VMX_SEGMENT_DESCRIPTOR)
  (gdtr : SEGMENT_DESCRIPTOR_REGISTER_64) (sel : SEGMENT_SELECTOR)
  (clearRpl : bool) :
  let os := mem (OsSegmentDescriptor_address gdtr sel) in
  0 <= BaseAddressLow os < 2 ^ 16 -> 0 <= BaseAddressMiddle os < 2 ^ 8 ->
  BaseAddress (VmxGetSegmentDescriptorFromSelector mem out gdtr sel clearRpl) =
  (BaseAddressUpper os mod 2 ^ 8) * 2 ^ 24 + BaseAddressMiddle os * 2 ^ 16
  + BaseAddressLow os.
Proof.
  cbv zeta; intros Hl Hm.
  rewrite VmxGetSegmentDescriptorFromSelector_run; cbn [BaseAddress].
  rewrite base_combined_sum by assumption.
  change 0xFFFFFFFF with (Z.ones 32); rewrite Z.land_ones by lia.
  change (2 ^ 32) with 4294967296; change (2 ^ 24) with 16777216;
    change (2 ^ 16) with 65536 in *; change (2 ^ 8) with 256 in *.
  Z.div_mod_to_equations; lia.
Qed.

(** X13: when the two limit fields of the descriptor read are within 16
    bits each, the segment limit of the output is their concatenation,
    high field above low field. *)
Theorem VmxGetSegmentDescriptorFromSelector_limit
  (mem : Memory) (out : VMX_SEGMENT_DESCRIPTOR)
  (gdtr : SEGMENT_DESCRIPTOR_REGISTER_64) (sel : SEGMENT_SELECTOR)
  (clearRpl : bool) :
  let os := mem (OsSegmentDescriptor_address gdtr sel) in
  0 <= SegmentLimitLow os < 2 ^ 16 -> 0 <= SegmentLimitHigh os < 2 ^ 16 ->
  SegmentLimit (VmxGetSegmentDescriptorFromSelector mem out gdtr sel clearRpl) =
  SegmentLimitHigh os * 2 ^ 16 + SegmentLimitLow os.
Proof.
  cbv zeta; intros Hl Hh.
  rewrite VmxGetSegmentDescriptorFromSelector_run; cbn [SegmentLimit].
  unfold limit_combined; rewrite lor_shiftl_add by lia.
  unfold uint32_of; apply Z.mod_small.
  change (2 ^ 32) with 4294967296; change (2 ^ 16) with 65536 in *. lia.
Qed.

Lemma VmxGetSegmentDescriptorFromSelector_base_witness :
  BaseAddress (VmxGetSegmentDescriptorFromSelector
                 mem_tss vmx_descriptor_stale gdtr_sample
                 (mkSelector 0x40) true) =
  (0xFFFFF801 mod 2 ^ 8) * 2 ^ 24 + 0x20 * 2 ^ 16 + 0x3000.
Proof.
  apply (VmxGetSegmentDescriptorFromSelector_base
           mem_tss vmx_descriptor_stale gdtr_sample (mkSelector 0x40) true);
    (vm_compute; split; [discriminate|reflexivity]).
Defined.

Lemma VmxGetSegmentDescriptorFromSelector_limit_witness :
  SegmentLimit (VmxGetSegmentDescriptorFromSelector
                  mem_sample vmx_descriptor_stale gdtr_sample
                  (mkSelector 0x10) false) =
  0xF * 2 ^ 16 + 0xFFFF.
Proof.
  apply (VmxGetSegmentDescriptorFromSelector_limit
           mem_sample vmx_descriptor_stale gdtr_sample (mkSelector 0x10) false);
    (vm_compute; split; [discriminate|reflexivity]).
Defined.

Lemma wf_descriptor_code : wf_descriptor descriptor_code.
Proof. unfold wf_descriptor; cbn; lia. Defined.

(** X14: when the descriptor read is well-formed, the access rights of
    the output are its flags, copied without loss: type, descriptor type,
    privilege level, present, long mode, default size and granularity go
    to the fields of the same name, the descriptor's System bit goes to
    AvailableBit, and "unusable" is 0. *)
Theorem VmxGetSegmentDescriptorFromSelector_access_rights
  (mem : Memory) (out : VMX_SEGMENT_DESCRIPTOR)
  (gdtr : SEGMENT_DESCRIPTOR_REGISTER_64) (sel : SEGMENT_SELECTOR)
  (clearRpl : bool) :
  let os := mem (OsSegmentDescriptor_address gdtr sel) in
  wf_descriptor os ->
  AccessRights
    (VmxGetSegmentDescriptorFromSelector mem out gdtr sel clearRpl) =
  {| Type_ := Os_Type os;
     DescriptorType := Os_DescriptorType os;
     DescriptorPrivilegeLevel := Os_DescriptorPrivilegeLevel os;
     Present := Os_Present os;
     AvailableBit := System os;
     LongMode := Os_LongMode os;
     DefaultBig := Os_DefaultBig os;
     Granularity := Os_Granularity os;
     Unusable := 0 |}.
Proof.
  cbv zeta; intros Hwf.
  apply (VmxGetSegmentDescriptorFromSelector_exact mem out gdtr sel clearRpl
           Hwf).
Qed.

Lemma VmxGetSegmentDescriptorFromSelector_access_rights_witness :
  AccessRights
    (VmxGetSegmentDescriptorFromSelector
       mem_sample vmx_descriptor_stale gdtr_sample (mkSelector 0x10) false) =
  mkAccessRights 0xB 1 0 1 0 1 0 1 0.
Proof.
  apply (VmxGetSegmentDescriptorFromSelector_access_rights
           mem_sample vmx_descriptor_stale gdtr_sample (mkSelector 0x10) false).
  exact wf_descriptor_code.
Defined.

Lemma cleared_flags (s : SEGMENT_SELECTOR) :
  wf_selector s ->
  Flags (set_RequestPrivilegeLevel 0 s) = Index s * 8 + Table s * 4.
Proof.
  intros H; rewrite set_RequestPrivilegeLevel_0.
  rewrite (selector_fields s H) at 1. lia.
Qed.

(** X15: with ClearRPL set, the requested privilege level of the selector
    has no influence: two 16-bit selectors with the same index and the
    same table indicator are translated to the same structure.  The null
    selector is thus translated like selector 3. *)
Theorem VmxGetSegmentDescriptorFromSelector_rpl_irrelevant
  (mem : Memory) (out1 out2 : VMX_SEGMENT_DESCRIPTOR)
  (gdtr : SEGMENT_DESCRIPTOR_REGISTER_64) (sel1 sel2 : SEGMENT_SELECTOR) :
  wf_selector sel1 -> wf_selector sel2 ->
  Index sel1 = Index sel2 -> Table sel1 = Table sel2 ->
  VmxGetSegmentDescriptorFromSelector mem out1 gdtr sel1 true =
  VmxGetSegmentDescriptorFromSelector mem out2 gdtr sel2 true.
Proof.
  intros H1 H2 Hi Ht.
  rewrite !VmxGetSegmentDescriptorFromSelector_run.
  unfold OsSegmentDescriptor_address.
  rewrite !cleared_flags, Hi, Ht by assumption. reflexivity.
Qed.

Lemma VmxGetSegmentDescriptorFromSelector_rpl_irrelevant_witness :
  VmxGetSegmentDescriptorFromSelector
    mem_sample vmx_descriptor_zero gdtr_sample (mkSelector 0) true =
  VmxGetSegmentDescriptorFromSelector
    mem_sample vmx_descriptor_stale gdtr_sample (mkSelector 3) true.
Proof.
  apply (VmxGetSegmentDescriptorFromSelector_rpl_irrelevant
           mem_sample vmx_descriptor_zero vmx_descriptor_stale gdtr_sample
           (mkSelector 0) (mkSelector 3));
    try reflexivity; unfold wf_selector; cbn; lia.
Defined.

(** X16: for a selector whose RPL bits are already 0, the ClearRPL flag
    makes no difference. *)
Theorem VmxGetSegmentDescriptorFromSelector_flag_irrelevant
  (mem : Memory) (out : VMX_SEGMENT_DESCRIPTOR)
  (gdtr : SEGMENT_DESCRIPTOR_REGISTER_64) (sel : SEGMENT_SELECTOR) :
  RequestPrivilegeLevel sel = 0 ->
  VmxGetSegmentDescriptorFromSelector mem out gdtr sel true =
  VmxGetSegmentDescriptorFromSelector mem out gdtr sel false.
Proof.
  intros H; rewrite !VmxGetSegmentDescriptorFromSelector_run.
  now rewrite set_RequestPrivilegeLevel_0, H, Z.sub_0_r.
Qed.

Lemma VmxGetSegmentDescriptorFromSelector_flag_irrelevant_witness :
  VmxGetSegmentDescriptorFromSelector
    mem_sample vmx_descriptor_stale gdtr_sample (mkSelector 0x18) true =
  VmxGetSegmentDescriptorFromSelector
    mem_sample vmx_descriptor_stale gdtr_sample (mkSelector 0x18) false.
Proof.
  apply (VmxGetSegmentDescriptorFromSelector_flag_irrelevant
           mem_sample vmx_descriptor_stale gdtr_sample (mkSelector 0x18)).
  reflexivity.
Defined.

(** X17: the selector the translation stores designates the descriptor it
    was built from.  Translating the stored selector of a ClearRPL result
    again, with either value of the flag and any output structure, gives
    that result back. *)
Theorem VmxGetSegmentDescriptorFromSelector_stored_selector
  (mem : Memory) (out out' : VMX_SEGMENT_DESCRIPTOR)
  (gdtr : SEGMENT_DESCRIPTOR_REGISTER_64) (sel : SEGMENT_SELECTOR)
  (again : bool) :
  let r := VmxGetSegmentDescriptorFromSelector mem out gdtr sel true in
  VmxGetSegmentDescriptorFromSelector
    mem out' gdtr (mkSelector (Selector r)) again = r.
Proof.
  cbv zeta; rewrite !VmxGetSegmentDescriptorFromSelector_run.
  cbn [Selector].
  assert (Hf : Flags (set_RequestPrivilegeLevel 0 sel) = Z.ldiff (Flags sel) 3).
  { unfold set_RequestPrivilegeLevel; cbn [Flags].
    change (Z.land 0 3) with 0. apply Z.lor_0_r. }
  assert (Ha : OsSegmentDescriptor_address gdtr
                 (mkSelector (Flags (set_RequestPrivilegeLevel 0 sel))) =
               OsSegmentDescriptor_address gdtr sel).
  { unfold OsSegmentDescriptor_address, Index; cbn [Flags].
    now rewrite Hf, ldiff_3_shiftr by lia. }
  rewrite Ha.
  assert (Hs : Flags (if again
                      then set_RequestPrivilegeLevel 0
                             (mkSelector (Flags (set_RequestPrivilegeLevel 0 sel)))
                      else mkSelector (Flags (set_RequestPrivilegeLevel 0 sel))) =
               Flags (set_RequestPrivilegeLevel 0 sel)).
  { destruct again; [|reflexivity].
    rewrite set_RequestPrivilegeLevel_0.
    unfold RequestPrivilegeLevel; cbn [Flags].
    rewrite Hf, ldiff_3_rpl. lia. }
  now rewrite Hs.
Qed.

(** X18: the limit of the descriptor-table register is never consulted.
    Registers with the same base and different limits give the same
    translation, so a selector whose index lies beyond the table is
    translated from whatever memory holds there. *)
Theorem VmxGetSegmentDescriptorFromSelector_ignores_limit
  (mem : Memory) (out : VMX_SEGMENT_DESCRIPTOR)
  (base limit1 limit2 : Z) (sel : SEGMENT_SELECTOR) (clearRpl : bool) :
  VmxGetSegmentDescriptorFromSelector mem out (mkGdtr limit1 base) sel clearRpl
  = VmxGetSegmentDescriptorFromSelector mem out (mkGdtr limit2 base) sel
      clearRpl.
Proof. now rewrite !VmxGetSegmentDescriptorFromSelector_run. Qed.
